(** * Provisioning scripts of common-ansible: quickstart.ps1 and vagrant-up.js

    Two programs are embedded here.

    - [Quickstart]: the PowerShell workflow [Provision-Windows-WSL-Ansible] of
      scripts/quickstart.ps1, its pending-reboot probe and its provisioning
      functions, as computations over a host record, the script variable
      [$rebootrequired] and a log of the cmdlets that were invoked.
    - [VagrantUp]: the program detectors of
      .config/scripts/prompts/vagrant-up.js ([exec], [isUnixInstalled],
      [isDotDesktopInstalled], [isMacInstalled], [isWindowsInstalled],
      [isInstalled]) over a system that answers shell commands and directory
      listings.

    Both use one result type for code that may throw. *)

From Stdlib Require Import ZArith List Bool String Ascii Lia.
From ExtLib Require Import Structures.Monad.
Import ListNotations.
Import MonadNotation.
Local Open Scope monad_scope.

(** ** Results of code that may throw *)

Inductive Outcome (E A : Type) : Type :=
| Ret (a : A)
| Throw (e : E).
Arguments Ret {E A} a.
Arguments Throw {E A} e.

#[global] Instance Monad_Outcome {E} : Monad (Outcome E) :=
  {| ret := fun _ a => Ret a;
     bind := fun _ _ m k => match m with
                            | Ret a => k a
                            | Throw e => Throw e
                            end |}.

(** [try { body } catch { handler }] *)
Definition try_catch {E A} (body : Outcome E A) (handler : E -> Outcome E A)
  : Outcome E A :=
  match body with
  | Ret a => Ret a
  | Throw e => handler e
  end.

(** * scripts/quickstart.ps1 *)

Module Quickstart.

(** ** The host, as far as the script looks at it *)

(** [State] property of Get-WindowsOptionalFeature. *)
Inductive FeatureState := Enabled | Disabled | EnablePending | DisablePending.

Inductive Feature := Microsoft_Windows_Subsystem_Linux | VirtualMachinePlatform.

(** C:\Temp\UBUNTU2004.appx and C:\Temp\docker-desktop-installer.exe *)
Inductive Artifact := UBUNTU2004_appx | docker_desktop_installer_exe.

(** What [\\.\root\ccm\clientsdk:CCM_ClientUtilities] answers:
    the class is not there (the cast throws), the method call throws,
    the method returns [$null], or it returns a status object. *)
Inductive CcmClient :=
| CcmMissing
| CcmFails
| CcmNoStatus
| CcmStatus (RebootPending : bool).

Record Host := mkHost {
  (** Get-ChildItem "...\Component Based Servicing\RebootPending" finds something *)
  cbs_RebootPending : bool;
  (** Get-Item "...\WindowsUpdate\Auto Update\RebootRequired" finds something *)
  wu_RebootRequired : bool;
  (** Get-ItemProperty "...\Session Manager" -Name PendingFileRenameOperations finds something *)
  PendingFileRenameOperations : bool;
  ccm_client : CcmClient;
  wsl_state : FeatureState;
  vmp_state : FeatureState;
  ubuntu_appx_file : bool;
  docker_installer_file : bool;
  (** Get-AppxPackage -Name CanonicalGroupLimited.Ubuntu20.04onWindows finds the package *)
  ubuntu_appx_package : bool
}.

Definition feature_state (f : Feature) (h : Host) : FeatureState :=
  match f with
  | Microsoft_Windows_Subsystem_Linux => wsl_state h
  | VirtualMachinePlatform => vmp_state h
  end.

Definition artifact_present (a : Artifact) (h : Host) : bool :=
  match a with
  | UBUNTU2004_appx => ubuntu_appx_file h
  | docker_desktop_installer_exe => docker_installer_file h
  end.

(** [$x.State -eq "Disabled"] *)
Definition is_Disabled (st : FeatureState) : bool :=
  match st with
  | Disabled => true
  | _ => false
  end.

(** ** Test-PendingReboot *)

Inductive Error := WmiClassNotFound | WmiMethodFailed.

(** [[wmiclass]"\\.\root\ccm\clientsdk:CCM_ClientUtilities"] *)
Definition wmiclass_CCM_ClientUtilities (h : Host) : Outcome Error unit :=
  match ccm_client h with
  | CcmMissing => Throw WmiClassNotFound
  | _ => Ret tt
  end.

(** [$util.DetermineIfRebootPending()]; [None] is [$null], [Some b] a status
    object whose [RebootPending] is [b]. *)
Definition DetermineIfRebootPending (h : Host) : Outcome Error (option bool) :=
  match ccm_client h with
  | CcmMissing => Throw WmiClassNotFound
  | CcmFails => Throw WmiMethodFailed
  | CcmNoStatus => Ret None
  | CcmStatus b => Ret (Some b)
  end.

(** The three registry reads carry [-EA Ignore] and cannot throw.  The body of
    the [try] yields [Some 1] when it executes [return 1] and [None] when
    control falls out of the block; [catch {}] swallows what was thrown. *)
Definition Test_PendingReboot (h : Host) : Outcome Error Z :=
  if cbs_RebootPending h then Ret 1%Z else
  if wu_RebootRequired h then Ret 1%Z else
  if PendingFileRenameOperations h then Ret 1%Z else
  returned <- try_catch
                (_ <- wmiclass_CCM_ClientUtilities h ;;
                 status <- DetermineIfRebootPending h ;;
                 match status with
                 | Some true => Ret (Some 1%Z)
                 | _ => Ret None
                 end)
                (fun _ => Ret None) ;;
  match returned with
  | Some v => Ret v
  | None => Ret 0%Z
  end.

(** ** Cmdlets and programs the script invokes *)

(** Argument lists of the [Start-Process "ubuntu.exe"] calls, in the order of
    SetupUbuntuWSL and RunPlaybook. *)
Inductive UbuntuArgs :=
| install_root
| run_adduser
| run_usermod_sudo
| run_sudoers_nopasswd
| config_default_user
| run_quickstart_sh
| run_playbook_continue.

Inductive Cmdlet :=
| New_Item_Temp
| Write_Host
| Install_PackageProvider
| Install_Module
| Get_WUInstall
| Restart_Computer
| Get_WindowsOptionalFeature (f : Feature)
| Enable_WindowsOptionalFeature (f : Feature)
| Test_Path (a : Artifact)
| Start_BitsTransfer (a : Artifact)
| Get_AppxPackage
| Add_AppxPackage
| Start_Process_ubuntu (args : UbuntuArgs)
| Start_Process_docker_installer
| Docker_Desktop_exe
| Start_Sleep
| WebClient_DownloadFile
| powershell_ConfigureRemotingForAnsible.

(** The statements of the workflow body, lines 165 to 182. *)
Inductive Activity :=
| A_Install_PackageProvider
| A_Install_Module
| A_EnsureWindowsUpdated
| A_EnableWinRM
| A_EnsureLinuxSubsystemEnabled
| A_EnsureVirtualMachinePlatformEnabled
| A_If_rebootrequired_Restart
| A_EnsureUbuntuAPPXInstalled
| A_SetupUbuntuWSL
| A_EnsureDockerDesktopInstalled
| A_Restart_Computer
| A_RunPlaybook
| A_Write_Host.

(** What a run leaves behind: the position at which each workflow statement
    was begun, and the cmdlets invoked. *)
Inductive Event :=
| Step (pc : nat) (a : Activity)
| Invoke (c : Cmdlet).

(** ** The platform

    What a cmdlet does to the host is not in the script; it is a parameter.
    So is the scope of an assignment to [$rebootrequired] made inside a
    function: PowerShell creates a variable local to the function
    ([FunctionLocal]); the script's comments and its test at line 174 read
    it as the one variable of line 16 ([ScriptWide]). *)
Inductive Scoping := FunctionLocal | ScriptWide.

Class Platform := {
  effect : Cmdlet -> Host -> Host;
  scoping : Scoping
}.

(** ** State of a run *)

Record State := mkState {
  host : Host;
  (** [$rebootrequired] of line 16 *)
  script_rebootrequired : Z;
  (** [$rebootrequired] of the function being executed, once it was assigned *)
  local_rebootrequired : option Z;
  log : list Event
}.

Definition M (A : Type) : Type := State -> Outcome Error A * State.

#[global] Instance Monad_M : Monad M :=
  {| ret := fun _ a s => (Ret a, s);
     bind := fun _ _ m k s =>
               match m s with
               | (Ret a, s') => k a s'
               | (Throw e, s') => (Throw e, s')
               end |}.

Definition record (e : Event) (s : State) : State :=
  mkState (host s) (script_rebootrequired s) (local_rebootrequired s)
          (log s ++ [e]).

Definition on_host (f : Host -> Host) (s : State) : State :=
  mkState (f (host s)) (script_rebootrequired s) (local_rebootrequired s)
          (log s).

Definition set_local (v : option Z) (s : State) : State :=
  mkState (host s) (script_rebootrequired s) v (log s).

Definition set_script (v : Z) (s : State) : State :=
  mkState (host s) v (local_rebootrequired s) (log s).

Definition update (f : State -> State) : M unit :=
  fun s => (Ret tt, f s).

Section Script.
Context {platform : Platform}.

(** A cmdlet that acts on the host. *)
Definition invoke (c : Cmdlet) : M unit :=
  fun s => (Ret tt, on_host (effect c) (record (Invoke c) s)).

(** A cmdlet that only reads the host. *)
Definition query {A} (c : Cmdlet) (read : Host -> A) : M A :=
  fun s => (Ret (read (host s)), record (Invoke c) s).

(** [Write-Host] and [Start-Sleep] leave the host as it is. *)
Definition display : M unit := query Write_Host (fun _ => tt).
Definition sleep : M unit := query Start_Sleep (fun _ => tt).

(** A function of the script that may throw. *)
Definition probe {A} (f : Host -> Outcome Error A) : M A :=
  fun s => (f (host s), s).

(** [$rebootrequired = v] inside a function *)
Definition assign_rebootrequired (v : Z) : M unit :=
  fun s => match scoping with
           | FunctionLocal => (Ret tt, set_local (Some v) s)
           | ScriptWide => (Ret tt, set_script v s)
           end.

(** [$rebootrequired] read: the function's own variable when it has one,
    the script's otherwise. *)
Definition read_rebootrequired : M Z :=
  fun s => (Ret (match local_rebootrequired s with
                 | Some v => v
                 | None => script_rebootrequired s
                 end), s).

(** A function call: the body runs in a fresh scope that ends with it. *)
Definition call {A} (body : M A) : M A :=
  fun s => let (r, s') := body (set_local None s) in
           (r, set_local (local_rebootrequired s) s').

(** ** The functions of the script *)

Definition EnsureWindowsUpdated : M unit :=
  call (
    display ;;
    invoke Get_WUInstall ;;
    pending <- probe Test_PendingReboot ;;
    assign_rebootrequired pending ;;
    rebootrequired <- read_rebootrequired ;;
    if (rebootrequired =? 1)%Z then
      invoke Restart_Computer ;;
      assign_rebootrequired 0
    else ret tt).

Definition EnsureLinuxSubsystemEnabled : M unit :=
  call (
    wslenabled <- query (Get_WindowsOptionalFeature Microsoft_Windows_Subsystem_Linux)
                        wsl_state ;;
    if is_Disabled wslenabled then
      display ;;
      invoke (Enable_WindowsOptionalFeature Microsoft_Windows_Subsystem_Linux) ;;
      assign_rebootrequired 1
    else
      display).

Definition EnsureVirtualMachinePlatformEnabled : M unit :=
  call (
    vmenabled <- query (Get_WindowsOptionalFeature VirtualMachinePlatform)
                       vmp_state ;;
    if is_Disabled vmenabled then
      display ;;
      invoke (Enable_WindowsOptionalFeature VirtualMachinePlatform) ;;
      assign_rebootrequired 1
    else
      display).

Definition EnsureUbuntuAPPXInstalled : M unit :=
  call (
    present <- query (Test_Path UBUNTU2004_appx) ubuntu_appx_file ;;
    (if negb present then
       display ;;
       invoke (Start_BitsTransfer UBUNTU2004_appx)
     else
       display) ;;
    ubu2004appxinstalled <- query Get_AppxPackage ubuntu_appx_package ;;
    if ubu2004appxinstalled then
      display
    else
      display ;;
      invoke Add_AppxPackage).

Definition SetupUbuntuWSL : M unit :=
  call (
    display ;;
    invoke (Start_Process_ubuntu install_root) ;;
    display ;;
    invoke (Start_Process_ubuntu run_adduser) ;;
    display ;;
    invoke (Start_Process_ubuntu run_usermod_sudo) ;;
    display ;;
    invoke (Start_Process_ubuntu run_sudoers_nopasswd) ;;
    display ;;
    invoke (Start_Process_ubuntu config_default_user)).

Definition EnsureDockerDesktopInstalled : M unit :=
  call (
    display ;;
    present <- query (Test_Path docker_desktop_installer_exe)
                     docker_installer_file ;;
    (if negb present then
       display ;;
       invoke (Start_BitsTransfer docker_desktop_installer_exe)
     else ret tt) ;;
    invoke Start_Process_docker_installer ;;
    display ;;
    invoke Docker_Desktop_exe ;;
    sleep ;;
    display).

Definition EnableWinRM : M unit :=
  call (
    invoke WebClient_DownloadFile ;;
    invoke powershell_ConfigureRemotingForAnsible).

Definition RunPlaybook : M unit :=
  call (
    invoke (Start_Process_ubuntu run_quickstart_sh) ;;
    invoke (Start_Process_ubuntu run_playbook_continue)).

(** ** The workflow *)

Definition exec_activity (a : Activity) : M unit :=
  match a with
  | A_Install_PackageProvider => invoke Install_PackageProvider
  | A_Install_Module => invoke Install_Module
  | A_EnsureWindowsUpdated => EnsureWindowsUpdated
  | A_EnableWinRM => EnableWinRM
  | A_EnsureLinuxSubsystemEnabled => EnsureLinuxSubsystemEnabled
  | A_EnsureVirtualMachinePlatformEnabled => EnsureVirtualMachinePlatformEnabled
  | A_If_rebootrequired_Restart =>
      rebootrequired <- read_rebootrequired ;;
      if (rebootrequired =? 1)%Z then invoke Restart_Computer else ret tt
  | A_EnsureUbuntuAPPXInstalled => EnsureUbuntuAPPXInstalled
  | A_SetupUbuntuWSL => SetupUbuntuWSL
  | A_EnsureDockerDesktopInstalled => EnsureDockerDesktopInstalled
  | A_Restart_Computer => invoke Restart_Computer
  | A_RunPlaybook => RunPlaybook
  | A_Write_Host => display
  end.

(** Body of [workflow Provision-Windows-WSL-Ansible], positions 0 to 14. *)
Definition Provision_Windows_WSL_Ansible : list Activity :=
  [ A_Install_PackageProvider;
    A_Install_Module;
    A_EnsureWindowsUpdated;
    A_EnsureWindowsUpdated;
    A_EnsureWindowsUpdated;
    A_EnableWinRM;
    A_EnsureLinuxSubsystemEnabled;
    A_EnsureVirtualMachinePlatformEnabled;
    A_If_rebootrequired_Restart;
    A_EnsureUbuntuAPPXInstalled;
    A_SetupUbuntuWSL;
    A_EnsureDockerDesktopInstalled;
    A_Restart_Computer;
    A_RunPlaybook;
    A_Write_Host ].

(** The statements [acts], the first of which stands at position [pc], one
    after the other.  [Restart-Computer -Wait] in a workflow returns once the
    machine is back, and the job goes on with the next statement. *)
Fixpoint run_activities (pc : nat) (acts : list Activity) : M unit :=
  match acts with
  | [] => ret tt
  | a :: rest =>
      update (record (Step pc a)) ;;
      exec_activity a ;;
      run_activities (S pc) rest
  end.

(** The workflow job continued at position [k]; position 0 is a fresh job. *)
Definition resume (k : nat) : M unit :=
  run_activities k (skipn k Provision_Windows_WSL_Ansible).

(** Lines 15, 16 and 186. *)
Definition quickstart : M unit :=
  invoke New_Item_Temp ;;
  update (set_script 0) ;;
  resume 0.

End Script.

End Quickstart.

(** * .config/scripts/prompts/vagrant-up.js *)

Module VagrantUp.

Local Open Scope string_scope.

(** ** node:child_process and node:fs, as far as the script uses them *)

Inductive Stdio := stdio_pipe | stdio_ignore | stdio_inherit.

Record ExecSyncOptions := {
  shell : option string;
  stdio : Stdio
}.

(** What [execSync] hands back: the captured standard output, or [null] when
    standard output is not piped to the parent. *)
Inductive JsValue :=
| JsNull
| JsBuffer (bytes : string).

(** [Boolean(v)]: [null] is falsy, every object is truthy. *)
Definition Boolean (v : JsValue) : bool :=
  match v with
  | JsNull => false
  | JsBuffer _ => true
  end.

Inductive JsError :=
| CommandFailed (cmd : string) (status : Z)
| ENOENT (path : string).

(** The machine the script runs on: the exit status and standard output of a
    command line under a shell, two environment variables, and the entries
    of the directories that exist. *)
Record System := {
  sh : option string -> string -> Z * string;
  XDG_DATA_HOME : option string;
  HOME : option string;
  directory : string -> option (list string)
}.

(** [execSync(cmd, opts)] throws when the command exits with a status other
    than zero. *)
Definition execSync (sys : System) (cmd : string) (opts : ExecSyncOptions)
  : Outcome JsError JsValue :=
  let (status, out) := sh sys (shell opts) cmd in
  if (status =? 0)%Z then
    Ret (match stdio opts with
         | stdio_pipe => JsBuffer out
         | _ => JsNull
         end)
  else Throw (CommandFailed cmd status).

(** [readdirSync(path)] throws when there is no such directory. *)
Definition readdirSync (sys : System) (path : string)
  : Outcome JsError (list string) :=
  match directory sys path with
  | Some entries => Ret entries
  | None => Throw (ENOENT path)
  end.

(** ** Array and String methods *)

Fixpoint Array_map {E A B} (f : A -> Outcome E B) (l : list A)
  : Outcome E (list B) :=
  match l with
  | [] => Ret []
  | x :: rest =>
      y <- f x ;;
      ys <- Array_map f rest ;;
      Ret (y :: ys)
  end.

Fixpoint Array_filter {E A} (f : A -> Outcome E bool) (l : list A)
  : Outcome E (list A) :=
  match l with
  | [] => Ret []
  | x :: rest =>
      keep <- f x ;;
      ys <- Array_filter f rest ;;
      Ret (if keep : bool then x :: ys else ys)
  end.

(** [l.some(f)] stops at the first element on which [f] is true. *)
Fixpoint Array_some {E A} (f : A -> Outcome E bool) (l : list A)
  : Outcome E bool :=
  match l with
  | [] => Ret false
  | x :: rest =>
      found <- f x ;;
      if found : bool then Ret true else Array_some f rest
  end.

Definition endsWith (s suffix : string) : bool :=
  (String.length suffix <=? String.length s)%nat
  && (substring (String.length s - String.length suffix)
                (String.length suffix) s =? suffix).

(** [s.replace(/\.desktop$/u, '')] *)
Definition replace_dot_desktop (s : string) : string :=
  if endsWith s ".desktop"
  then substring 0 (String.length s - String.length ".desktop") s
  else s.

(** [process.env.X && `${process.env.X}/tail`]: [None] is [undefined]. *)
Definition env_and (x : option string) (tail : string) : option string :=
  match x with
  | None => None
  | Some v => if v =? EmptyString then Some EmptyString else Some (v ++ tail)
  end.

(** [.filter(Boolean)] on such entries: [undefined] and [''] are dropped. *)
Fixpoint filter_Boolean (l : list (option string)) : list string :=
  match l with
  | [] => []
  | None :: rest => filter_Boolean rest
  | Some v :: rest =>
      if v =? EmptyString then filter_Boolean rest
      else v :: filter_Boolean rest
  end.

(** ** The script *)

Definition options : ExecSyncOptions :=
  {| shell := None; stdio := stdio_ignore |}.

Definition optionsPowerShell : ExecSyncOptions :=
  {| shell := Some "powershell.exe"; stdio := stdio_ignore |}.

(** The template literals of [isUnixInstalled] and [isMacInstalled]. *)
Definition hash_command (program : string) : string :=
  "hash " ++ program ++ " 2>/dev/null".

Definition double_quote : string := String (ascii_of_nat 34) EmptyString.

Definition osascript_command (program : string) : string :=
  "osascript -e 'id of application " ++ double_quote ++ program
  ++ double_quote ++ "' 2>&1>/dev/null".

Section Detectors.
Variable sys : System.

Definition exec (cmd : string) : Outcome JsError JsValue :=
  execSync sys cmd options.

Definition execPowerShell (cmd : string) : Outcome JsError JsValue :=
  execSync sys cmd optionsPowerShell.

Definition isUnixInstalled (program : string) : Outcome JsError bool :=
  v <- exec (hash_command program) ;;
  Ret (Boolean v).

Definition isDotDesktopInstalled (program : string) : Outcome JsError bool :=
  directories <-
    Array_filter
      (fun path => entries <- readdirSync sys path ;;
                   (* an array is an object: truthy *)
                   Ret (let _ := entries in true))
      (filter_Boolean
         [ env_and (XDG_DATA_HOME sys) "/applications";
           env_and (HOME sys) "/.local/share/applications";
           Some "/usr/share/applications";
           Some "/usr/local/share/applications" ]) ;;
  listings <- Array_map (B := list string) (readdirSync sys) directories ;;
  let desktopFiles :=
    map replace_dot_desktop
        (filter (fun file => endsWith file ".desktop") (List.concat listings)) in
  Ret (existsb (String.eqb (replace_dot_desktop program)) desktopFiles).

Definition isMacInstalled (program : string) : Outcome JsError bool :=
  v <- exec (osascript_command program) ;;
  Ret (Boolean v).

Definition where_attempts (program : string) : list string :=
  [ "where " ++ program;
    "where " ++ program ++ ".exe";
    "where.exe " ++ program;
    "where.exe " ++ program ++ ".exe" ].

Definition isWindowsInstalled (program : string) : Outcome JsError bool :=
  results <- Array_map (fun attempt => v <- exec attempt ;; Ret (Boolean v))
                       (where_attempts program) ;;
  Ret (existsb (Bool.eqb true) results).

Definition isInstalled (program : string) : Outcome JsError bool :=
  Array_some (fun check => check program)
             [ isUnixInstalled; isMacInstalled; isWindowsInstalled;
               isDotDesktopInstalled ].

End Detectors.

(** The command line exits with status 0 under the default shell. *)
Definition succeeds (sys : System) (cmd : string) : Prop :=
  fst (sh sys None cmd) = 0%Z.

(** ** Systems *)

(** A Linux desktop with VirtualBox registered as an application but with no
    [virtualbox] on the PATH, no osascript and no where: every probing
    command exits with status 1. *)
Definition desktop_only : System :=
  {| sh := fun _ _ => (1%Z, EmptyString);
     XDG_DATA_HOME := None;
     HOME := Some "/home/user";
     directory := fun path =>
       if path =? "/usr/share/applications"
       then Some ["virtualbox.desktop"; "mimeinfo.cache"]
       else if path =? "/usr/local/share/applications" then Some []
       else if path =? "/home/user/.local/share/applications" then Some []
       else None |}.

(** The same desktop on which every command line exits with status 0. *)
Definition obliging : System :=
  {| sh := fun _ _ => (0%Z, "/usr/bin/virtualbox");
     XDG_DATA_HOME := XDG_DATA_HOME desktop_only;
     HOME := HOME desktop_only;
     directory := directory desktop_only |}.

End VagrantUp.

(** * What is observed of a run of the workflow *)

Import Quickstart.

(** The workflow statements that were begun, with their positions, in order. *)
Fixpoint steps_of (l : list Event) : list (nat * Activity) :=
  match l with
  | [] => []
  | Step pc a :: rest => (pc, a) :: steps_of rest
  | Invoke _ :: rest => steps_of rest
  end.

(** The statements of the workflow from position [k] on, with their positions. *)
Definition steps_from (k : nat) : list (nat * Activity) :=
  combine (seq k (List.length Provision_Windows_WSL_Ansible - k))
          (skipn k Provision_Windows_WSL_Ansible).

(** How often a step installs updates. *)
Definition update_passes (a : Activity) : nat :=
  match a with
  | A_EnsureWindowsUpdated => 1
  | _ => 0
  end.

(** [Test-PendingReboot] answered 1. *)
Definition reboot_pending (h : Host) : bool :=
  match Test_PendingReboot h with
  | Ret 1%Z => true
  | _ => false
  end.

Fixpoint cmdlets_of (l : list Event) : list Cmdlet :=
  match l with
  | [] => []
  | Step _ _ :: rest => cmdlets_of rest
  | Invoke c :: rest => c :: cmdlets_of rest
  end.

(** Cmdlets that install, enable, download, configure or launch something.
    Restarts are counted apart, by [restarts]. *)
Definition mutating (c : Cmdlet) : bool :=
  match c with
  | New_Item_Temp
  | Install_PackageProvider
  | Install_Module
  | Get_WUInstall
  | Enable_WindowsOptionalFeature _
  | Start_BitsTransfer _
  | Add_AppxPackage
  | Start_Process_ubuntu _
  | Start_Process_docker_installer
  | Docker_Desktop_exe
  | WebClient_DownloadFile
  | powershell_ConfigureRemotingForAnsible => true
  | Write_Host
  | Restart_Computer
  | Get_WindowsOptionalFeature _
  | Test_Path _
  | Get_AppxPackage
  | Start_Sleep => false
  end.

(** Cmdlets that only look at the host to decide whether to act. *)
Definition inspecting (c : Cmdlet) : bool :=
  match c with
  | Get_WindowsOptionalFeature _ | Test_Path _ | Get_AppxPackage => true
  | _ => false
  end.

(** The mutating cmdlets the script puts behind a test. *)
Definition guarded (c : Cmdlet) : bool :=
  match c with
  | Enable_WindowsOptionalFeature _ | Start_BitsTransfer _ | Add_AppxPackage => true
  | _ => false
  end.

Definition is_restart (c : Cmdlet) : bool :=
  match c with
  | Restart_Computer => true
  | _ => false
  end.

Definition is_update (c : Cmdlet) : bool :=
  match c with
  | Get_WUInstall => true
  | _ => false
  end.

Definition mutations (l : list Event) : list Cmdlet :=
  filter mutating (cmdlets_of l).

Definition restarts (l : list Event) : nat :=
  List.length (filter is_restart (cmdlets_of l)).

Definition updates (l : list Event) : nat :=
  List.length (filter is_update (cmdlets_of l)).

(** The events a computation added to the log of the state it started in. *)
Definition added (s s' : State) : list Event :=
  skipn (List.length (log s)) (log s').

(** The part of a log after the first occurrence of [c], and the part before. *)
Fixpoint after_cmdlet (c : Cmdlet -> bool) (l : list Event) : list Event :=
  match l with
  | [] => []
  | Invoke c' :: rest => if c c' then rest else after_cmdlet c rest
  | _ :: rest => after_cmdlet c rest
  end.

Fixpoint before_cmdlet (c : Cmdlet -> bool) (l : list Event) : list Event :=
  match l with
  | [] => []
  | Invoke c' :: rest => if c c' then [] else Invoke c' :: before_cmdlet c rest
  | e :: rest => e :: before_cmdlet c rest
  end.

Definition enables_wsl (c : Cmdlet) : bool :=
  match c with
  | Enable_WindowsOptionalFeature Microsoft_Windows_Subsystem_Linux => true
  | _ => false
  end.

(** ** The conditions the steps test before they act *)

Inductive Capability :=
| FeatureEnabled (f : Feature)
| ArtifactDownloaded (a : Artifact)
| UbuntuInstalled.

Definition IsSatisfied (c : Capability) (h : Host) : bool :=
  match c with
  | FeatureEnabled f => negb (is_Disabled (feature_state f h))
  | ArtifactDownloaded a => artifact_present a h
  | UbuntuInstalled => ubuntu_appx_package h
  end.

(** The capabilities a step looks at, in the order of its tests. *)
Definition inspects (a : Activity) : list Capability :=
  match a with
  | A_EnsureLinuxSubsystemEnabled =>
      [FeatureEnabled Microsoft_Windows_Subsystem_Linux]
  | A_EnsureVirtualMachinePlatformEnabled =>
      [FeatureEnabled VirtualMachinePlatform]
  | A_EnsureUbuntuAPPXInstalled =>
      [ArtifactDownloaded UBUNTU2004_appx; UbuntuInstalled]
  | A_EnsureDockerDesktopInstalled =>
      [ArtifactDownloaded docker_desktop_installer_exe]
  | _ => []
  end.

Definition all_capabilities : list Capability :=
  [ FeatureEnabled Microsoft_Windows_Subsystem_Linux;
    FeatureEnabled VirtualMachinePlatform;
    ArtifactDownloaded UBUNTU2004_appx;
    ArtifactDownloaded docker_desktop_installer_exe;
    UbuntuInstalled ].

Definition provisioned (h : Host) : bool :=
  forallb (fun c => IsSatisfied c h) all_capabilities.

(** The steps whose every mutating cmdlet stands behind a test. *)
Definition guarded_steps : list Activity :=
  [ A_EnsureLinuxSubsystemEnabled;
    A_EnsureVirtualMachinePlatformEnabled;
    A_EnsureUbuntuAPPXInstalled ].

(** The mutating cmdlets a step invokes whatever the host looks like. *)
Definition unguarded (a : Activity) : list Cmdlet :=
  match a with
  | A_Install_PackageProvider => [Install_PackageProvider]
  | A_Install_Module => [Install_Module]
  | A_EnsureWindowsUpdated => [Get_WUInstall]
  | A_EnableWinRM => [WebClient_DownloadFile; powershell_ConfigureRemotingForAnsible]
  | A_SetupUbuntuWSL =>
      map Start_Process_ubuntu
          [install_root; run_adduser; run_usermod_sudo; run_sudoers_nopasswd;
           config_default_user]
  | A_EnsureDockerDesktopInstalled =>
      [Start_Process_docker_installer; Docker_Desktop_exe]
  | A_RunPlaybook =>
      map Start_Process_ubuntu [run_quickstart_sh; run_playbook_continue]
  | _ => []
  end.

(** ** Platforms

    A platform is dependable when its cmdlets achieve what the script calls
    them for and none undoes a capability that holds. *)
Record Dependable (P : Platform) : Prop := {
  enable_takes : forall f h,
    IsSatisfied (FeatureEnabled f) (effect (Enable_WindowsOptionalFeature f) h) = true;
  transfer_takes : forall a h,
    IsSatisfied (ArtifactDownloaded a) (effect (Start_BitsTransfer a) h) = true;
  add_appx_takes : forall h,
    IsSatisfied UbuntuInstalled (effect Add_AppxPackage h) = true;
  nothing_undone : forall c cap h,
    IsSatisfied cap h = true -> IsSatisfied cap (effect c h) = true
}.

(** A host on which every cmdlet succeeds: an enabled feature is pending until
    the restart, a restart clears the registry markers, a transfer leaves the
    file, the package installs. *)
Definition cooperative_effect (c : Cmdlet) (h : Host) : Host :=
  match c with
  | Enable_WindowsOptionalFeature Microsoft_Windows_Subsystem_Linux =>
      mkHost (cbs_RebootPending h) (wu_RebootRequired h)
             (PendingFileRenameOperations h) (ccm_client h)
             EnablePending (vmp_state h)
             (ubuntu_appx_file h) (docker_installer_file h)
             (ubuntu_appx_package h)
  | Enable_WindowsOptionalFeature VirtualMachinePlatform =>
      mkHost (cbs_RebootPending h) (wu_RebootRequired h)
             (PendingFileRenameOperations h) (ccm_client h)
             (wsl_state h) EnablePending
             (ubuntu_appx_file h) (docker_installer_file h)
             (ubuntu_appx_package h)
  | Restart_Computer =>
      mkHost false false false (ccm_client h)
             (match wsl_state h with EnablePending => Enabled | st => st end)
             (match vmp_state h with EnablePending => Enabled | st => st end)
             (ubuntu_appx_file h) (docker_installer_file h)
             (ubuntu_appx_package h)
  | Start_BitsTransfer UBUNTU2004_appx =>
      mkHost (cbs_RebootPending h) (wu_RebootRequired h)
             (PendingFileRenameOperations h) (ccm_client h)
             (wsl_state h) (vmp_state h)
             true (docker_installer_file h) (ubuntu_appx_package h)
  | Start_BitsTransfer docker_desktop_installer_exe =>
      mkHost (cbs_RebootPending h) (wu_RebootRequired h)
             (PendingFileRenameOperations h) (ccm_client h)
             (wsl_state h) (vmp_state h)
             (ubuntu_appx_file h) true (ubuntu_appx_package h)
  | Add_AppxPackage =>
      mkHost (cbs_RebootPending h) (wu_RebootRequired h)
             (PendingFileRenameOperations h) (ccm_client h)
             (wsl_state h) (vmp_state h)
             (ubuntu_appx_file h) (docker_installer_file h) true
  | _ => h
  end.

Definition cooperative (sc : Scoping) : Platform :=
  {| effect := cooperative_effect; scoping := sc |}.

(** A host on which no cmdlet changes anything the script looks at. *)
Definition inert (sc : Scoping) : Platform :=
  {| effect := fun _ h => h; scoping := sc |}.

(** ** Hosts *)

(** Nothing pending, no management agent, nothing provisioned. *)
Definition fresh_host : Host :=
  mkHost false false false CcmMissing Disabled Disabled false false false.

(** Everything the script tests for is there. *)
Definition provisioned_host : Host :=
  mkHost false false false CcmMissing Enabled Enabled true true true.

(** Ubuntu is installed and its image was removed from C:\Temp afterwards. *)
Definition image_deleted_host : Host :=
  mkHost false false false CcmMissing Enabled Enabled false true true.

(** File renames are pending. *)
Definition stuck_host : Host :=
  mkHost false false true CcmMissing Disabled Disabled false false false.

(** Only the management agent reports a pending restart. *)
Definition managed_host : Host :=
  mkHost false false false (CcmStatus true) Enabled Enabled true true true.

(** The management agent's query throws while an update asks for a restart. *)
Definition broken_agent_host : Host :=
  mkHost false true false CcmFails Enabled Enabled true true true.

(** The state in which the script enters the workflow on host [h]. *)
Definition start (h : Host) : State := mkState h 0 None [].

(** The three statements of lines 172 to 176. *)
Definition feature_phase : list Activity :=
  firstn 3 (skipn 6 Provision_Windows_WSL_Ansible).

(** The state a first complete run leaves on a fresh host where every cmdlet
    succeeds. *)
Definition provisioned_once : State :=
  snd (@resume (cooperative FunctionLocal) 0 (start fresh_host)).

(** The statements up to the third EnsureWindowsUpdated, lines 165 to 170. *)
Definition update_phase : list Activity :=
  firstn 5 Provision_Windows_WSL_Ansible.

(** ** Further observations on a run *)

(** The mutating cmdlets that are not behind a test. *)
Definition unconditional (l : list Event) : list Cmdlet :=
  filter (fun c => negb (guarded c)) (mutations l).

(** The guarded cmdlets a step can invoke, in the order of its tests. *)
Definition may_invoke (a : Activity) : list Cmdlet :=
  match a with
  | A_EnsureLinuxSubsystemEnabled =>
      [Enable_WindowsOptionalFeature Microsoft_Windows_Subsystem_Linux]
  | A_EnsureVirtualMachinePlatformEnabled =>
      [Enable_WindowsOptionalFeature VirtualMachinePlatform]
  | A_EnsureUbuntuAPPXInstalled =>
      [Start_BitsTransfer UBUNTU2004_appx; Add_AppxPackage]
  | A_EnsureDockerDesktopInstalled =>
      [Start_BitsTransfer docker_desktop_installer_exe]
  | _ => []
  end.

(** The restarts a step issues at least and at most. *)
Definition min_restarts (a : Activity) : nat :=
  match a with
  | A_Restart_Computer => 1
  | _ => 0
  end.

Definition max_restarts (a : Activity) : nat :=
  match a with
  | A_EnsureWindowsUpdated | A_If_rebootrequired_Restart | A_Restart_Computer => 1
  | _ => 0
  end.

(** [l1] is [l2] with some elements left out. *)
Inductive Subsequence {A : Type} : list A -> list A -> Prop :=
| Subsequence_nil : Subsequence [] []
| Subsequence_skip (x : A) (l1 l2 : list A) :
    Subsequence l1 l2 -> Subsequence l1 (x :: l2)
| Subsequence_keep (x : A) (l1 l2 : list A) :
    Subsequence l1 l2 -> Subsequence (x :: l1) (x :: l2).

(** The statements before the restart test of line 174. *)
Definition before_restart_test : list Activity :=
  firstn 8 Provision_Windows_WSL_Ansible.

(** A host with both features enabled, the package installed, and neither
    file in C:\Temp. *)
Definition files_removed_host : Host :=
  mkHost false false false CcmMissing Enabled Enabled false false true.

(** The state of a fresh host on which every cmdlet succeeds once the
    statements at positions 0 to 5 have been executed. *)
Definition six_statements_done : State :=
  snd (@run_activities (cooperative FunctionLocal) 0
         (firstn 6 Provision_Windows_WSL_Ansible) (start fresh_host)).

(** The state in which a fresh host on which every cmdlet succeeds reaches
    the restart test of line 174, under function-local scoping. *)
Definition at_restart_test : State :=
  snd (@run_activities (cooperative FunctionLocal) 0 before_restart_test
         (start fresh_host)).

(** * vagrant-up.js: the provider prompt *)

Module VagrantUpPrompt.

Import VagrantUp.
Local Open Scope string_scope.

(** [platformMap[key]] for the keys the object defines itself; [None] is
    [undefined]. *)
Definition platformMap (key : string) : option string :=
  if key =? "Hyper-V" then Some "hyperv"
  else if key =? "KVM" then Some "libvirt"
  else if key =? "Parallels" then Some "parallels"
  else if key =? "VMWare Fusion" then Some "vmware_fusion"
  else if key =? "VMWare Workstation" then Some "vmware_workstation"
  else if key =? "VirtualBox" then Some "virtualbox"
  else None.

(** The command line of lines 146 to 148. *)
Definition hyperv_query : string :=
  "$hyperv = Get-WindowsOptionalFeature -FeatureName Microsoft-Hyper-V-All -Online; $hyperv.State -eq "
  ++ double_quote ++ "Enabled" ++ double_quote.

(** The directories [isDotDesktopInstalled] lists, lines 60 to 66. *)
Definition application_directories (sys : System) : list string :=
  filter_Boolean
    [ env_and (XDG_DATA_HOME sys) "/applications";
      env_and (HOME sys) "/.local/share/applications";
      Some "/usr/share/applications";
      Some "/usr/local/share/applications" ].

(** The entries of those directories, in the order they are read. *)
Definition listed_entries (sys : System) : list string :=
  flat_map (fun d => match directory sys d with
                     | Some entries => entries
                     | None => []
                     end)
           (application_directories sys).

(** [cond && probe] as the test of an [if]: the probe runs only when [cond]
    holds. *)
Definition and_then (cond : bool) (probe : Outcome JsError bool)
  : Outcome JsError bool :=
  if cond then probe else Ret false.

(** [choices.push(x)] when the test held. *)
Definition push_if (test : bool) (x : string) (choices : list string)
  : list string :=
  if test then choices ++ [x] else choices.

Section Prompt.
Variable sys : System.
(** [process.platform] *)
Variable platform : string.

(** The [choices] array of promptForPlatform at the time the prompt is shown,
    lines 143 to 166. *)
Definition platform_choices : Outcome JsError (list string) :=
  let choices := [] in
  hyperv <- and_then (platform =? "win32")
                     (v <- execPowerShell sys hyperv_query ;; Ret (Boolean v)) ;;
  let choices := push_if hyperv "Hyper-V" choices in
  kvm <- and_then ((platform =? "darwin") || (platform =? "linux"))
                  (isInstalled sys "kvm") ;;
  let choices := push_if kvm "KVM" choices in
  parallels <- and_then (platform =? "darwin")
                        (isInstalled sys "Parallels Desktop.app") ;;
  let choices := push_if parallels "Parallels" choices in
  virtualbox <- isInstalled sys "virtualbox" ;;
  let choices := push_if virtualbox "VirtualBox" choices in
  fusion <- and_then (platform =? "darwin")
                     (isInstalled sys "VMware Fusion.app") ;;
  let choices := push_if fusion "VMWare Fusion" choices in
  workstation <- and_then (negb (platform =? "darwin"))
                          (isInstalled sys "vmware") ;;
  let choices := push_if workstation "VMWare Workstation" choices in
  Ret choices.

(** promptForPlatform; [answer] is the entry the user picks from the list
    the prompt shows. *)
Definition promptForPlatform (answer : list string -> string)
  : Outcome JsError (option string) :=
  choices <- platform_choices ;;
  Ret (platformMap (answer choices)).

(** What [run] prints, [operatingSystem] being what promptForDesktop
    returned; an [undefined] provider prints as such. *)
Definition run (operatingSystem : string) (answer : list string -> string)
  : Outcome JsError string :=
  virtualizationPlatform <- promptForPlatform answer ;;
  Ret ("--provider="
       ++ match virtualizationPlatform with
          | Some provider => provider
          | None => "undefined"
          end
       ++ " " ++ operatingSystem).

End Prompt.

(** The program each choice is probed with, lines 152 to 165. *)
Definition probed_program (choice : string) : string :=
  if choice =? "KVM" then "kvm"
  else if choice =? "Parallels" then "Parallels Desktop.app"
  else if choice =? "VirtualBox" then "virtualbox"
  else if choice =? "VMWare Fusion" then "VMware Fusion.app"
  else "vmware".

(** A macOS machine on which every command line exits with status 0 and
    VirtualBox and VMware Fusion are registered as applications. *)
Definition mac_with_fusion : System :=
  {| sh := fun _ _ => (0%Z, EmptyString);
     XDG_DATA_HOME := None;
     HOME := None;
     directory := fun path =>
       if path =? "/usr/share/applications"
       then Some ["virtualbox.desktop"; "VMware Fusion.app.desktop"]
       else if path =? "/usr/local/share/applications" then Some []
       else None |}.

(** The user picks the first entry of the list. *)
Definition first_choice (choices : list string) : string :=
  match choices with
  | [] => EmptyString
  | c :: _ => c
  end.

End VagrantUpPrompt.

(** * Properties *)

(** * Test-PendingReboot *)

Lemma Test_PendingReboot_value (h : Host) :
  Test_PendingReboot h =
  Ret (if cbs_RebootPending h || wu_RebootRequired h
          || PendingFileRenameOperations h
          || match ccm_client h with CcmStatus true => true | _ => false end
       then 1%Z else 0%Z).
Proof.
  unfold Test_PendingReboot, wmiclass_CCM_ClientUtilities,
    DetermineIfRebootPending.
  destruct (cbs_RebootPending h), (wu_RebootRequired h),
    (PendingFileRenameOperations h); try reflexivity.
  destruct (ccm_client h) as [ | | | [ | ]]; reflexivity.
Qed.

(** C3. Whenever one of the four signals is there (the component-servicing
    marker, the update marker, the pending file renames, or a management
    agent that answers with RebootPending set), Test-PendingReboot returns 1,
    whatever the other three are. *)
Theorem Test_PendingReboot_any_signal (h : Host) :
  cbs_RebootPending h = true \/
  wu_RebootRequired h = true \/
  PendingFileRenameOperations h = true \/
  ccm_client h = CcmStatus true ->
  Test_PendingReboot h = Ret 1%Z.
Proof.
  intros Hsig. rewrite Test_PendingReboot_value.
  destruct Hsig as [E | [E | [E | E]]]; rewrite E;
    rewrite ?orb_true_r; reflexivity.
Qed.

Lemma Test_PendingReboot_any_signal_witness :
  Test_PendingReboot managed_host = Ret 1%Z.
Proof.
  apply (Test_PendingReboot_any_signal managed_host).
  right. right. right. reflexivity.
Defined.

(** C6. When the management agent is not installed or its query throws,
    Test-PendingReboot still returns: nothing is thrown to the caller, the
    agent counts as not asking for a restart, and the three registry signals
    decide the answer. *)
Theorem Test_PendingReboot_agent_failure (h : Host) :
  ccm_client h = CcmMissing \/ ccm_client h = CcmFails ->
  (wmiclass_CCM_ClientUtilities h = Throw WmiClassNotFound \/
   DetermineIfRebootPending h = Throw WmiMethodFailed) /\
  Test_PendingReboot h =
  Ret (if cbs_RebootPending h || wu_RebootRequired h
          || PendingFileRenameOperations h
       then 1%Z else 0%Z).
Proof.
  intros Hagent. split.
  - unfold wmiclass_CCM_ClientUtilities, DetermineIfRebootPending.
    destruct Hagent as [E | E]; rewrite E; auto.
  - rewrite Test_PendingReboot_value.
    destruct Hagent as [E | E]; rewrite E; rewrite orb_false_r; reflexivity.
Qed.

Lemma Test_PendingReboot_agent_failure_witness :
  Test_PendingReboot broken_agent_host = Ret 1%Z /\
  Test_PendingReboot fresh_host = Ret 0%Z.
Proof.
  split.
  - apply (Test_PendingReboot_agent_failure broken_agent_host).
    right. reflexivity.
  - apply (Test_PendingReboot_agent_failure fresh_host).
    left. reflexivity.
Defined.

(** * The steps of the workflow *)

Lemma steps_of_app (l1 l2 : list Event) :
  steps_of (l1 ++ l2) = steps_of l1 ++ steps_of l2.
Proof.
  induction l1 as [ | [pc a | c] l1 IH]; simpl; congruence.
Qed.

Lemma cmdlets_of_app (l1 l2 : list Event) :
  cmdlets_of (l1 ++ l2) = cmdlets_of l1 ++ cmdlets_of l2.
Proof.
  induction l1 as [ | [pc a | c] l1 IH]; simpl; congruence.
Qed.

Lemma mutations_app (l1 l2 : list Event) :
  mutations (l1 ++ l2) = mutations l1 ++ mutations l2.
Proof.
  unfold mutations. now rewrite cmdlets_of_app, filter_app.
Qed.

Lemma restarts_app (l1 l2 : list Event) :
  restarts (l1 ++ l2) = restarts l1 + restarts l2.
Proof.
  unfold restarts. now rewrite cmdlets_of_app, filter_app, length_app.
Qed.

Lemma updates_app (l1 l2 : list Event) :
  updates (l1 ++ l2) = updates l1 + updates l2.
Proof.
  unfold updates. now rewrite cmdlets_of_app, filter_app, length_app.
Qed.

Lemma added_app (s s' : State) (l : list Event) :
  log s' = log s ++ l -> added s s' = l.
Proof.
  intros E. unfold added. rewrite E.
  rewrite skipn_app, skipn_all, Nat.sub_diag. reflexivity.
Qed.

Arguments Test_PendingReboot : simpl never.

Ltac unfold_script :=
  unfold exec_activity, EnsureWindowsUpdated, EnsureLinuxSubsystemEnabled,
    EnsureVirtualMachinePlatformEnabled, EnsureUbuntuAPPXInstalled,
    SetupUbuntuWSL, EnsureDockerDesktopInstalled, EnableWinRM, RunPlaybook,
    call, display, sleep, invoke, query, probe, assign_rebootrequired,
    read_rebootrequired, update;
  cbn.

(** Splits the goal on every test the script makes. *)
Ltac split_tests :=
  repeat match goal with
         | |- context [Test_PendingReboot ?h] =>
             rewrite (Test_PendingReboot_value h)
         | |- context [if ?b then _ else _] => destruct b eqn:?; cbn
         | |- context [match scoping with _ => _ end] =>
             destruct scoping eqn:?; cbn
         | |- context [match local_rebootrequired ?s with _ => _ end] =>
             destruct (local_rebootrequired s) eqn:?; cbn
         end.

Ltac log_tail :=
  cbn; rewrite <- ?app_assoc; cbn;
  first [reflexivity | symmetry; apply app_nil_r].

(** Every statement of the workflow returns, adds its cmdlets to the log,
    begins no other statement, restarts at most once, and installs updates
    only when it is EnsureWindowsUpdated. *)
Lemma exec_activity_returns `{Platform} (a : Activity) (s : State) :
  exists s' l,
    exec_activity a s = (Ret tt, s') /\
    log s' = log s ++ l /\
    steps_of l = [] /\
    restarts l <= 1 /\
    updates l = update_passes a.
Proof.
  destruct a; unfold_script; split_tests;
    (do 2 eexists; split; [reflexivity | ]; split; [log_tail | ];
     cbn; auto).
Qed.

Lemma run_activities_cons `{Platform} (pc : nat) (a : Activity)
      (rest : list Activity) (s : State) :
  run_activities pc (a :: rest) s =
  match exec_activity a (record (Step pc a) s) with
  | (Ret _, s1) => run_activities (S pc) rest s1
  | (Throw e, s1) => (Throw e, s1)
  end.
Proof. reflexivity. Qed.

(** A run of consecutive statements returns, begins each of them once at its
    own position, and installs updates once per EnsureWindowsUpdated. *)
Lemma run_activities_returns `{Platform} (acts : list Activity) :
  forall (pc : nat) (s : State),
  exists s' l,
    run_activities pc acts s = (Ret tt, s') /\
    log s' = log s ++ l /\
    steps_of l = combine (seq pc (List.length acts)) acts /\
    updates l = list_sum (map update_passes acts).
Proof.
  induction acts as [ | a rest IH]; intros pc s.
  - exists s, []. cbn. rewrite app_nil_r. auto.
  - rewrite run_activities_cons.
    destruct (exec_activity_returns a (record (Step pc a) s))
      as (s1 & l1 & Hrun & Hlog & Hsteps & _ & Hupd).
    rewrite Hrun.
    destruct (IH (S pc) s1) as (s2 & l2 & Hrun2 & Hlog2 & Hsteps2 & Hupd2).
    exists s2, (Step pc a :: l1 ++ l2). split; [assumption | ].
    split.
    + rewrite Hlog2, Hlog. cbn. rewrite <- !app_assoc. reflexivity.
    + split.
      * cbn. rewrite steps_of_app, Hsteps, Hsteps2. reflexivity.
      * change (Step pc a :: l1 ++ l2) with ([Step pc a] ++ l1 ++ l2).
        rewrite !updates_app, Hupd, Hupd2. reflexivity.
Qed.

(** C8. One execution of a statement of the workflow, whichever it is and
    whatever the host, returns with at most one Restart-Computer issued. *)
Theorem one_restart_per_step `{Platform} (a : Activity) (s : State) :
  exists s' l,
    exec_activity a s = (Ret tt, s') /\
    log s' = log s ++ l /\
    restarts l <= 1.
Proof.
  destruct (exec_activity_returns a s) as (s' & l & Hrun & Hlog & _ & Hr & _).
  exists s', l. auto.
Qed.

(** * The update passes *)

Lemma EnsureWindowsUpdated_log `{Platform} (s : State) :
  exists s1,
    EnsureWindowsUpdated s = (Ret tt, s1) /\
    log s1 = log s ++ Invoke Write_Host :: Invoke Get_WUInstall ::
             (if reboot_pending (effect Get_WUInstall (host s))
              then [Invoke Restart_Computer] else []).
Proof.
  unfold reboot_pending. unfold_script.
  rewrite !Test_PendingReboot_value.
  match goal with
  | |- context [if ?b then 1%Z else 0%Z] => destruct b
  end; cbn; destruct scoping; cbn;
    (eexists; split; [reflexivity | log_tail]).
Qed.

(** C4, as the script has it. EnsureWindowsUpdated installs updates and then
    restarts exactly when Test-PendingReboot answers 1; the workflow calls it
    three times, neither more nor less, and then goes on through every later
    statement to its end whatever the probe answered: no pass fails. *)
Theorem update_passes_bounded_then_proceed `{Platform} (s : State) :
  (exists s1,
      EnsureWindowsUpdated s = (Ret tt, s1) /\
      log s1 = log s ++ Invoke Write_Host :: Invoke Get_WUInstall ::
               (if reboot_pending (effect Get_WUInstall (host s))
                then [Invoke Restart_Computer] else [])) /\
  (exists s' l,
      resume 0 s = (Ret tt, s') /\
      log s' = log s ++ l /\
      updates l = 3 /\
      steps_of l = steps_from 0).
Proof.
  split; [apply EnsureWindowsUpdated_log | ].
  destruct (run_activities_returns Provision_Windows_WSL_Ansible 0 s)
    as (s' & l & Hrun & Hlog & Hsteps & Hupd).
  exists s', l. auto.
Qed.

(** C4 fails as stated: on a host whose pending file renames never go away,
    the third pass still finds a restart pending (each of the three passes
    restarted), and the workflow returns normally after beginning every later
    statement. *)
Lemma updates_exhausted_workflow_proceeds :
  restarts (log (snd (@run_activities (inert FunctionLocal) 0 update_phase
                        (start stuck_host)))) = 3 /\
  reboot_pending (host (snd (@run_activities (inert FunctionLocal) 0
                               update_phase (start stuck_host)))) = true /\
  fst (@resume (inert FunctionLocal) 0 (start stuck_host)) = Ret tt /\
  steps_of (log (snd (@resume (inert FunctionLocal) 0 (start stuck_host))))
  = steps_from 0.
Proof. vm_compute. auto. Qed.

(** * The feature steps and the restart that follows them *)

Lemma feature_phase_statements :
  feature_phase = [ A_EnsureLinuxSubsystemEnabled;
                    A_EnsureVirtualMachinePlatformEnabled;
                    A_If_rebootrequired_Restart ].
Proof. reflexivity. Qed.

(** C5 on the code. On a fresh host the Linux-subsystem feature is Disabled
    and the workflow enables it, but the assignment [$rebootrequired = 1] of
    line 54 stays inside the function: the test of line 174 finds the
    script's variable at 0 and issues no restart. The statements at
    positions 7 to 11 (the second feature, the Ubuntu image and package, the
    WSL set-up, Docker) all run before the first restart after the enabling,
    which is the one of line 180 and the only restart of the run. *)
Theorem no_restart_after_wsl_enabled :
  wsl_state fresh_host = Disabled /\
  @resume (cooperative FunctionLocal) 0 (start fresh_host)
  = (Ret tt, provisioned_once) /\
  In (Invoke (Enable_WindowsOptionalFeature Microsoft_Windows_Subsystem_Linux))
     (log provisioned_once) /\
  steps_of (before_cmdlet is_restart
              (after_cmdlet enables_wsl (log provisioned_once)))
  = [ (7, A_EnsureVirtualMachinePlatformEnabled);
      (8, A_If_rebootrequired_Restart);
      (9, A_EnsureUbuntuAPPXInstalled);
      (10, A_SetupUbuntuWSL);
      (11, A_EnsureDockerDesktopInstalled);
      (12, A_Restart_Computer) ] /\
  mutations (before_cmdlet is_restart
               (after_cmdlet enables_wsl (log provisioned_once)))
  = [ Enable_WindowsOptionalFeature VirtualMachinePlatform;
      Start_BitsTransfer UBUNTU2004_appx; Add_AppxPackage;
      Start_Process_ubuntu install_root; Start_Process_ubuntu run_adduser;
      Start_Process_ubuntu run_usermod_sudo;
      Start_Process_ubuntu run_sudoers_nopasswd;
      Start_Process_ubuntu config_default_user;
      Start_BitsTransfer docker_desktop_installer_exe;
      Start_Process_docker_installer; Docker_Desktop_exe ] /\
  restarts (log provisioned_once) = 1 /\
  script_rebootrequired provisioned_once = 0%Z.
Proof.
  vm_compute. repeat split.
  repeat (first [left; reflexivity | right]).
Qed.

(** Under function-local scoping the three statements of lines 172 to 176
    issue no restart, whatever the host. *)
Lemma restart_test_function_local `{Platform} (s : State) :
  scoping = FunctionLocal ->
  local_rebootrequired s = None ->
  script_rebootrequired s = 0%Z ->
  restarts (added s (snd (run_activities 6 feature_phase s))) = 0.
Proof.
  intros Hsc Hloc Hscr. rewrite feature_phase_statements.
  rewrite !run_activities_cons. unfold_script. rewrite Hsc. cbn.
  destruct (is_Disabled (wsl_state (host s))); cbn;
    unfold EnsureVirtualMachinePlatformEnabled, call, query, display, invoke,
      assign_rebootrequired; cbn; rewrite ?Hsc;
    destruct (is_Disabled _); cbn; rewrite Hloc, Hscr; cbn;
    (erewrite added_app; [ | log_tail]); reflexivity.
Qed.

(** * Steps on a host that is already provisioned *)

Lemma provisioned_fields (h : Host) :
  provisioned h = true ->
  is_Disabled (wsl_state h) = false /\
  is_Disabled (vmp_state h) = false /\
  ubuntu_appx_file h = true /\
  docker_installer_file h = true /\
  ubuntu_appx_package h = true.
Proof.
  unfold provisioned. cbn. rewrite !andb_true_iff, !negb_true_iff. tauto.
Qed.

(** C7, as the script has it. Each of EnsureLinuxSubsystemEnabled,
    EnsureVirtualMachinePlatformEnabled and EnsureUbuntuAPPXInstalled begins by
    inspecting the host, and when everything it inspects is satisfied it
    returns with the host as it was: no mutating cmdlet, no restart. *)
Theorem guarded_step_skips_when_satisfied `{Platform}
        (a : Activity) (s : State) :
  In a guarded_steps ->
  forallb (fun c => IsSatisfied c (host s)) (inspects a) = true ->
  exists s' c l,
    exec_activity a s = (Ret tt, s') /\
    host s' = host s /\
    log s' = log s ++ Invoke c :: l /\
    inspecting c = true /\
    mutations (Invoke c :: l) = [] /\
    restarts (Invoke c :: l) = 0.
Proof.
  intros Hin Hsat. cbn in Hin.
  destruct Hin as [<- | [<- | [<- | []]]]; cbn in Hsat;
    rewrite ?andb_true_iff, ?negb_true_iff in Hsat.
  - destruct Hsat as [Hwsl _]. unfold_script. rewrite Hwsl. cbn.
    do 3 eexists. split; [reflexivity | ]. split; [reflexivity | ].
    split; [log_tail | auto].
  - destruct Hsat as [Hvmp _]. unfold_script. rewrite Hvmp. cbn.
    do 3 eexists. split; [reflexivity | ]. split; [reflexivity | ].
    split; [log_tail | auto].
  - destruct Hsat as (Hfile & Hpkg & _). unfold_script.
    rewrite Hfile. cbn. rewrite Hpkg. cbn.
    do 3 eexists. split; [reflexivity | ]. split; [reflexivity | ].
    split; [log_tail | auto].
Qed.

Lemma guarded_step_skips_when_satisfied_witness :
  exists s' c l,
    @exec_activity (inert FunctionLocal) A_EnsureUbuntuAPPXInstalled
                   (start provisioned_host) = (Ret tt, s') /\
    host s' = host (start provisioned_host) /\
    log s' = log (start provisioned_host) ++ Invoke c :: l /\
    inspecting c = true /\
    mutations (Invoke c :: l) = [] /\
    restarts (Invoke c :: l) = 0.
Proof.
  apply (@guarded_step_skips_when_satisfied (inert FunctionLocal)
           A_EnsureUbuntuAPPXInstalled (start provisioned_host)).
  - cbn. auto.
  - reflexivity.
Defined.

(** C7 fails as stated: on a host where every capability is satisfied,
    SetupUbuntuWSL inspects nothing and runs its five commands, and
    EnsureDockerDesktopInstalled, whose one test (the installer file) is
    satisfied, runs the installer and launches Docker Desktop; and where
    Ubuntu is installed but its image file is gone,
    EnsureUbuntuAPPXInstalled transfers the image again. *)
Lemma unguarded_steps_act_on_provisioned_host :
  provisioned provisioned_host = true /\
  filter inspecting
    (cmdlets_of (log (snd (@exec_activity (inert FunctionLocal)
                             A_SetupUbuntuWSL (start provisioned_host)))))
  = [] /\
  mutations (log (snd (@exec_activity (inert FunctionLocal)
                         A_SetupUbuntuWSL (start provisioned_host))))
  = map Start_Process_ubuntu
        [install_root; run_adduser; run_usermod_sudo; run_sudoers_nopasswd;
         config_default_user] /\
  forallb (fun c => IsSatisfied c provisioned_host)
          (inspects A_EnsureDockerDesktopInstalled) = true /\
  mutations (log (snd (@exec_activity (inert FunctionLocal)
                         A_EnsureDockerDesktopInstalled
                         (start provisioned_host))))
  = [Start_Process_docker_installer; Docker_Desktop_exe] /\
  IsSatisfied UbuntuInstalled image_deleted_host = true /\
  mutations (log (snd (@exec_activity (inert FunctionLocal)
                         A_EnsureUbuntuAPPXInstalled
                         (start image_deleted_host))))
  = [Start_BitsTransfer UBUNTU2004_appx].
Proof. vm_compute. auto 10. Qed.

(** On a provisioned host a step invokes its unguarded cmdlets and no other
    mutating one. *)
Lemma exec_activity_on_provisioned `{Platform} (a : Activity) (s : State) :
  provisioned (host s) = true ->
  exists s' l,
    exec_activity a s = (Ret tt, s') /\
    log s' = log s ++ l /\
    mutations l = unguarded a.
Proof.
  intros Hp. apply provisioned_fields in Hp.
  destruct Hp as (Hwsl & Hvmp & Hfile & Hdocker & Hpkg).
  destruct a; unfold_script;
    rewrite ?Hwsl, ?Hvmp, ?Hfile, ?Hdocker; cbn; rewrite ?Hpkg; cbn;
    split_tests;
    (do 2 eexists; split; [reflexivity | ]; split; [log_tail | reflexivity]).
Qed.

Arguments IsSatisfied : simpl never.

Section DependablePlatform.
Context {P : Platform} (D : Dependable P).

Lemma exec_activity_keeps (a : Activity) (s : State) (cap : Capability) :
  IsSatisfied cap (host s) = true ->
  IsSatisfied cap (host (snd (exec_activity a s))) = true.
Proof.
  intros Hcap.
  destruct a; unfold_script; split_tests;
    repeat apply (nothing_undone P D); assumption.
Qed.

Lemma exec_activity_establishes (a : Activity) (s : State) (cap : Capability) :
  In cap (inspects a) ->
  IsSatisfied cap (host (snd (exec_activity a s))) = true.
Proof.
  intros Hin.
  destruct a; cbn in Hin; try contradiction;
    repeat match goal with
           | H : _ \/ _ |- _ => destruct H
           | H : False |- _ => destruct H
           end; subst cap; unfold_script; split_tests;
    repeat first
      [ apply (enable_takes P D)
      | apply (transfer_takes P D)
      | apply (add_appx_takes P D)
      | solve [ unfold IsSatisfied, feature_state, artifact_present;
                match goal with
                | E : ?b = false |- negb ?b = true => rewrite E; reflexivity
                | E : negb ?b = false |- ?b = true =>
                    apply negb_false_iff in E; exact E
                | E : ?b = true |- ?b = true => exact E
                end ]
      | apply (nothing_undone P D) ].
Qed.

Lemma run_activities_keeps (acts : list Activity) (cap : Capability) :
  forall (pc : nat) (s : State),
    IsSatisfied cap (host s) = true ->
    IsSatisfied cap (host (snd (run_activities pc acts s))) = true.
Proof.
  induction acts as [ | a rest IH]; intros pc s Hcap; [exact Hcap | ].
  rewrite run_activities_cons.
  destruct (exec_activity_returns a (record (Step pc a) s))
    as (s1 & l1 & Hrun & _).
  pose proof (exec_activity_keeps a (record (Step pc a) s) cap Hcap) as Hk.
  rewrite Hrun in *. apply IH. exact Hk.
Qed.

Lemma run_activities_establishes (acts : list Activity) (cap : Capability) :
  forall (pc : nat) (s : State),
    In cap (flat_map inspects acts) ->
    IsSatisfied cap (host (snd (run_activities pc acts s))) = true.
Proof.
  induction acts as [ | a rest IH]; intros pc s Hin; [destruct Hin | ].
  rewrite run_activities_cons.
  destruct (exec_activity_returns a (record (Step pc a) s))
    as (s1 & l1 & Hrun & _).
  pose proof (exec_activity_establishes a (record (Step pc a) s) cap) as He.
  rewrite Hrun in *. cbn in Hin. apply in_app_or in Hin.
  destruct Hin as [Hin | Hin].
  - apply run_activities_keeps. apply He. exact Hin.
  - apply IH. exact Hin.
Qed.

(** A complete run leaves every capability satisfied. *)
Lemma workflow_provisions (s : State) :
  provisioned (host (snd (resume 0 s))) = true.
Proof.
  unfold provisioned. apply forallb_forall. intros cap Hcap.
  apply run_activities_establishes.
  cbn in Hcap |- *. intuition (subst; auto 10).
Qed.

Lemma run_activities_on_provisioned (acts : list Activity) :
  forall (pc : nat) (s : State),
    provisioned (host s) = true ->
    exists s' l,
      run_activities pc acts s = (Ret tt, s') /\
      log s' = log s ++ l /\
      mutations l = flat_map unguarded acts.
Proof.
  induction acts as [ | a rest IH]; intros pc s Hp.
  - exists s, []. cbn. rewrite app_nil_r. auto.
  - rewrite run_activities_cons.
    destruct (exec_activity_on_provisioned a (record (Step pc a) s) Hp)
      as (s1 & l1 & Hrun & Hlog & Hmut).
    assert (Hp1 : provisioned (host s1) = true).
    { unfold provisioned in *. apply forallb_forall. intros cap Hcap.
      pose proof (exec_activity_keeps a (record (Step pc a) s) cap) as Hk.
      rewrite Hrun in Hk. apply Hk.
      eapply forallb_forall in Hp; eauto. }
    rewrite Hrun.
    destruct (IH (S pc) s1 Hp1) as (s2 & l2 & Hrun2 & Hlog2 & Hmut2).
    exists s2, (Step pc a :: l1 ++ l2). split; [assumption | ]. split.
    + rewrite Hlog2, Hlog. cbn. rewrite <- !app_assoc. reflexivity.
    + change (Step pc a :: l1 ++ l2) with ([Step pc a] ++ l1 ++ l2).
      rewrite !mutations_app, Hmut, Hmut2. reflexivity.
Qed.

End DependablePlatform.

Lemma guarded_among_mutations (l : list Event) :
  filter guarded (cmdlets_of l) = filter guarded (mutations l).
Proof.
  unfold mutations.
  induction (cmdlets_of l) as [ | c cs IH]; [reflexivity | ].
  destruct c; cbn; rewrite IH; reflexivity.
Qed.

Lemma cooperative_dependable (sc : Scoping) : Dependable (cooperative sc).
Proof.
  split.
  - intros [ | ] h; reflexivity.
  - intros [ | ] h; reflexivity.
  - intros h; reflexivity.
  - intros c cap h Hcap. unfold IsSatisfied, feature_state, artifact_present in *.
    destruct c as [ | | | | | | f | [ | ] | a | [ | ] | | | u | | | | | ];
      destruct cap as [[ | ] | [ | ] | ]; cbn in *; try assumption;
      try reflexivity.
    + destruct (wsl_state h); cbn in *; congruence.
    + destruct (vmp_state h); cbn in *; congruence.
Qed.

(** C2, as the script has it. After a complete run on a platform whose
    cmdlets succeed and undo nothing, a second run on the host as the first
    left it invokes none of the guarded cmdlets (no feature is enabled, no
    file transferred, no package added), and invokes again every unguarded
    mutating cmdlet: the provider and module installs, three update
    installs, the WinRM download and configuration, the five WSL set-up
    commands, the Docker installer and Docker Desktop, and the two playbook
    commands. *)
Theorem rerun_repeats_unguarded_cmdlets `{P : Platform}
        (D : Dependable P) (s : State) :
  exists once twice again,
    resume 0 s = (Ret tt, once) /\
    resume 0 once = (Ret tt, twice) /\
    log twice = log once ++ again /\
    filter guarded (cmdlets_of again) = [] /\
    mutations again =
      [ Install_PackageProvider; Install_Module;
        Get_WUInstall; Get_WUInstall; Get_WUInstall;
        WebClient_DownloadFile; powershell_ConfigureRemotingForAnsible;
        Start_Process_ubuntu install_root;
        Start_Process_ubuntu run_adduser;
        Start_Process_ubuntu run_usermod_sudo;
        Start_Process_ubuntu run_sudoers_nopasswd;
        Start_Process_ubuntu config_default_user;
        Start_Process_docker_installer; Docker_Desktop_exe;
        Start_Process_ubuntu run_quickstart_sh;
        Start_Process_ubuntu run_playbook_continue ].
Proof.
  destruct (run_activities_returns Provision_Windows_WSL_Ansible 0 s)
    as (once & l & Hrun & _).
  pose proof (workflow_provisions D s) as Hp.
  unfold resume in Hp |- *. cbn [skipn] in Hp |- *. rewrite Hrun in Hp.
  destruct (run_activities_on_provisioned D Provision_Windows_WSL_Ansible
              0 once Hp) as (twice & again & Hrun2 & Hlog2 & Hmut).
  exists once, twice, again. repeat split; try assumption.
  rewrite guarded_among_mutations, Hmut. reflexivity.
Qed.

Lemma rerun_repeats_unguarded_cmdlets_witness :
  exists once twice again,
    @resume (cooperative FunctionLocal) 0 (start fresh_host) = (Ret tt, once) /\
    @resume (cooperative FunctionLocal) 0 once = (Ret tt, twice) /\
    log twice = log once ++ again /\
    filter guarded (cmdlets_of again) = [] /\
    mutations again =
      [ Install_PackageProvider; Install_Module;
        Get_WUInstall; Get_WUInstall; Get_WUInstall;
        WebClient_DownloadFile; powershell_ConfigureRemotingForAnsible;
        Start_Process_ubuntu install_root;
        Start_Process_ubuntu run_adduser;
        Start_Process_ubuntu run_usermod_sudo;
        Start_Process_ubuntu run_sudoers_nopasswd;
        Start_Process_ubuntu config_default_user;
        Start_Process_docker_installer; Docker_Desktop_exe;
        Start_Process_ubuntu run_quickstart_sh;
        Start_Process_ubuntu run_playbook_continue ].
Proof.
  exact (@rerun_repeats_unguarded_cmdlets (cooperative FunctionLocal)
           (cooperative_dependable FunctionLocal) (start fresh_host)).
Defined.

(** C2 fails as stated: the first run on a fresh host completes and leaves
    every capability satisfied, and the second run on that host still
    performs sixteen mutating actions, among them the Docker installer and
    the append to /etc/sudoers. *)
Lemma second_run_mutates_host :
  @resume (cooperative FunctionLocal) 0 (start fresh_host)
  = (Ret tt, provisioned_once) /\
  provisioned (host provisioned_once) = true /\
  fst (@resume (cooperative FunctionLocal) 0 provisioned_once) = Ret tt /\
  List.length
    (mutations (added provisioned_once
                  (snd (@resume (cooperative FunctionLocal) 0 provisioned_once))))
  = 16 /\
  In Start_Process_docker_installer
    (mutations (added provisioned_once
                  (snd (@resume (cooperative FunctionLocal) 0 provisioned_once)))) /\
  In (Start_Process_ubuntu run_sudoers_nopasswd)
    (mutations (added provisioned_once
                  (snd (@resume (cooperative FunctionLocal) 0 provisioned_once)))).
Proof. vm_compute. intuition. Qed.

(** * Further properties of quickstart.ps1 *)

(** X1. Test-PendingReboot returns 0 exactly when none of the four signals is
    there: no registry marker, and no management agent answering with
    RebootPending set (an agent that is missing, throws, returns [$null] or
    reports false does not count). *)
Theorem Test_PendingReboot_zero_iff (h : Host) :
  Test_PendingReboot h = Ret 0%Z <->
  cbs_RebootPending h = false /\
  wu_RebootRequired h = false /\
  PendingFileRenameOperations h = false /\
  ccm_client h <> CcmStatus true.
Proof.
  rewrite Test_PendingReboot_value.
  destruct (cbs_RebootPending h), (wu_RebootRequired h),
    (PendingFileRenameOperations h), (ccm_client h) as [ | | | [ | ]];
    cbn; split; intros Hx;
    try discriminate; try reflexivity;
    try (repeat split; congruence);
    try (destruct Hx as (? & ? & ? & ?); congruence).
Qed.

Lemma Test_PendingReboot_zero_iff_witness :
  Test_PendingReboot (mkHost false false false (CcmStatus false)
                             Disabled Disabled false false false)
  = Ret 0%Z.
Proof.
  apply Test_PendingReboot_zero_iff. cbn. repeat split; congruence.
Defined.

(** ** What every run does, whatever the host *)

Lemma Subsequence_app {A : Type} (l1 l1' l2 l2' : list A) :
  Subsequence l1 l1' -> Subsequence l2 l2' ->
  Subsequence (l1 ++ l2) (l1' ++ l2').
Proof.
  induction 1 as [ | x l1 l1' Hs IH | x l1 l1' Hs IH]; intros H2; cbn.
  - exact H2.
  - apply Subsequence_skip. auto.
  - apply Subsequence_keep. auto.
Qed.

Lemma Subsequence_In {A : Type} (l1 l2 : list A) (x : A) :
  Subsequence l1 l2 -> In x l1 -> In x l2.
Proof.
  induction 1; cbn; intuition.
Qed.

Lemma Subsequence_NoDup {A : Type} (l1 l2 : list A) :
  Subsequence l1 l2 -> NoDup l2 -> NoDup l1.
Proof.
  induction 1 as [ | x l1 l2 Hs IH | x l1 l2 Hs IH]; intros Hnd.
  - constructor.
  - inversion Hnd; subst. auto.
  - inversion Hnd; subst. constructor; [ | auto].
    intros Hin. eapply Subsequence_In in Hin; eauto.
Qed.

Lemma unconditional_app (l1 l2 : list Event) :
  unconditional (l1 ++ l2) = unconditional l1 ++ unconditional l2.
Proof.
  unfold unconditional. now rewrite mutations_app, filter_app.
Qed.

(** One statement: its unguarded cmdlets all run, of its guarded ones some
    do, and its restarts stay within its bounds. *)
Lemma exec_activity_profile `{Platform} (a : Activity) (s : State) :
  exists s' l,
    exec_activity a s = (Ret tt, s') /\
    log s' = log s ++ l /\
    unconditional l = unguarded a /\
    Subsequence (filter guarded (cmdlets_of l)) (may_invoke a) /\
    min_restarts a <= restarts l <= max_restarts a.
Proof.
  destruct a; unfold_script; split_tests;
    (do 2 eexists; split; [reflexivity | ]; split; [log_tail | ];
     split; [reflexivity | ]; split;
     [ cbn;
       repeat first [ apply Subsequence_nil
                    | apply Subsequence_keep
                    | apply Subsequence_skip ]
     | cbn; lia ]).
Qed.

Lemma run_activities_profile `{Platform} (acts : list Activity) :
  forall (pc : nat) (s : State),
  exists s' l,
    run_activities pc acts s = (Ret tt, s') /\
    log s' = log s ++ l /\
    unconditional l = flat_map unguarded acts /\
    Subsequence (filter guarded (cmdlets_of l)) (flat_map may_invoke acts) /\
    list_sum (map min_restarts acts) <= restarts l
      <= list_sum (map max_restarts acts).
Proof.
  induction acts as [ | a rest IH]; intros pc s.
  - exists s, []. cbn. rewrite app_nil_r.
    repeat split; auto. constructor.
  - rewrite run_activities_cons.
    destruct (exec_activity_profile a (record (Step pc a) s))
      as (s1 & l1 & Hrun & Hlog & Hunc & Hsub & Hres).
    rewrite Hrun.
    destruct (IH (S pc) s1)
      as (s2 & l2 & Hrun2 & Hlog2 & Hunc2 & Hsub2 & Hres2).
    exists s2, ([Step pc a] ++ l1 ++ l2). split; [assumption | ].
    split; [ | split; [ | split]].
    + rewrite Hlog2, Hlog. cbn. rewrite <- !app_assoc. reflexivity.
    + rewrite !unconditional_app, Hunc, Hunc2. reflexivity.
    + rewrite !cmdlets_of_app, !filter_app. cbn [cmdlets_of filter app].
      apply Subsequence_app; assumption.
    + rewrite !restarts_app.
      change (list_sum (map min_restarts (a :: rest)))
        with (min_restarts a + list_sum (map min_restarts rest)).
      change (list_sum (map max_restarts (a :: rest)))
        with (max_restarts a + list_sum (map max_restarts rest)).
      change (restarts [Step pc a]) with 0. lia.
Qed.

Lemma firstn_seq_min (k start len : nat) :
  firstn k (seq start len) = seq start (Nat.min k len).
Proof.
  revert start len. induction k as [ | k IH]; intros start [ | len]; cbn;
    try reflexivity.
  now rewrite IH.
Qed.



(** X3. Whatever the host and the platform, a run of the workflow performs
    the sixteen mutating cmdlets that stand behind no test, in this order:
    the provider and module installs, three update installs, the WinRM
    download and configuration, the five WSL set-up commands, the Docker
    installer and Docker Desktop, and the two playbook commands. *)
Theorem every_run_performs_unguarded_cmdlets `{Platform} (s : State) :
  exists s' l,
    resume 0 s = (Ret tt, s') /\
    log s' = log s ++ l /\
    unconditional l =
      [ Install_PackageProvider; Install_Module;
        Get_WUInstall; Get_WUInstall; Get_WUInstall;
        WebClient_DownloadFile; powershell_ConfigureRemotingForAnsible;
        Start_Process_ubuntu install_root;
        Start_Process_ubuntu run_adduser;
        Start_Process_ubuntu run_usermod_sudo;
        Start_Process_ubuntu run_sudoers_nopasswd;
        Start_Process_ubuntu config_default_user;
        Start_Process_docker_installer; Docker_Desktop_exe;
        Start_Process_ubuntu run_quickstart_sh;
        Start_Process_ubuntu run_playbook_continue ].
Proof.
  destruct (run_activities_profile Provision_Windows_WSL_Ansible 0 s)
    as (s' & l & Hrun & Hlog & Hunc & _).
  exists s', l. auto.
Qed.

(** X4. In a run of the workflow the guarded cmdlets come in a fixed order
    and none is invoked twice: what is invoked is a selection from
    enabling the Linux subsystem, enabling the virtual machine platform,
    transferring the Ubuntu image, adding the Ubuntu package and
    transferring the Docker installer. *)
Theorem guarded_cmdlets_at_most_once `{Platform} (s : State) :
  exists s' l,
    resume 0 s = (Ret tt, s') /\
    log s' = log s ++ l /\
    Subsequence (filter guarded (cmdlets_of l))
      [ Enable_WindowsOptionalFeature Microsoft_Windows_Subsystem_Linux;
        Enable_WindowsOptionalFeature VirtualMachinePlatform;
        Start_BitsTransfer UBUNTU2004_appx;
        Add_AppxPackage;
        Start_BitsTransfer docker_desktop_installer_exe ] /\
    NoDup (filter guarded (cmdlets_of l)).
Proof.
  destruct (run_activities_profile Provision_Windows_WSL_Ansible 0 s)
    as (s' & l & Hrun & Hlog & _ & Hsub & _).
  exists s', l. repeat split; try assumption.
  eapply Subsequence_NoDup; [exact Hsub | ].
  cbn. repeat constructor; cbn; intuition discriminate.
Qed.

(** X5. A run of the workflow restarts the machine at least once (line 180)
    and at most five times (three update passes, the test of line 174 and
    line 180), whatever the host and the platform. *)
Theorem restarts_per_run `{Platform} (s : State) :
  exists s' l,
    resume 0 s = (Ret tt, s') /\
    log s' = log s ++ l /\
    1 <= restarts l <= 5.
Proof.
  destruct (run_activities_profile Provision_Windows_WSL_Ansible 0 s)
    as (s' & l & Hrun & Hlog & _ & _ & Hres).
  exists s', l. auto.
Qed.

(** ** The scope of [$rebootrequired] and the restart test of line 174 *)

(** A statement of the workflow leaves the scope of its caller as it found
    it, and under function-local scoping it leaves the script's variable
    alone. *)
Lemma exec_activity_function_local `{Platform} (a : Activity) (s : State) :
  scoping = FunctionLocal ->
  exists s',
    exec_activity a s = (Ret tt, s') /\
    script_rebootrequired s' = script_rebootrequired s /\
    local_rebootrequired s' = local_rebootrequired s.
Proof.
  intros Hsc. destruct a; unfold_script; rewrite ?Hsc; cbn; split_tests;
    rewrite ?Hsc; cbn; (eexists; split; [reflexivity | ]; cbn; auto).
Qed.

Lemma run_activities_function_local `{Platform} (acts : list Activity) :
  scoping = FunctionLocal ->
  forall (pc : nat) (s : State),
  exists s',
    run_activities pc acts s = (Ret tt, s') /\
    script_rebootrequired s' = script_rebootrequired s /\
    local_rebootrequired s' = local_rebootrequired s.
Proof.
  intros Hsc. induction acts as [ | a rest IH]; intros pc s.
  - exists s. auto.
  - rewrite run_activities_cons.
    destruct (exec_activity_function_local a (record (Step pc a) s) Hsc)
      as (s1 & Hrun & Hscr & Hloc).
    rewrite Hrun. destruct (IH (S pc) s1) as (s2 & Hrun2 & Hscr2 & Hloc2).
    cbn in Hscr, Hloc.
    exists s2. split; [assumption | ]. split; congruence.
Qed.

(** X6. When an assignment inside a function is local to it, as in
    PowerShell, the statements before line 174 never change the script's
    [$rebootrequired]: whatever they did to the host, and even after both
    features were enabled, the test of line 174 issues no restart and the
    workflow goes straight on. *)
Theorem restart_test_idle_when_function_local `{Platform} (s s8 : State) :
  scoping = FunctionLocal ->
  local_rebootrequired s = None ->
  script_rebootrequired s <> 1%Z ->
  run_activities 0 before_restart_test s = (Ret tt, s8) ->
  script_rebootrequired s8 = script_rebootrequired s /\
  run_activities 8 [A_If_rebootrequired_Restart] s8
  = (Ret tt, record (Step 8 A_If_rebootrequired_Restart) s8).
Proof.
  intros Hsc Hloc Hscr Hrun.
  destruct (run_activities_function_local before_restart_test Hsc 0 s)
    as (s' & Hrun' & Hscr' & Hloc').
  rewrite Hrun in Hrun'. injection Hrun' as <-.
  split; [assumption | ].
  rewrite run_activities_cons. unfold_script.
  rewrite Hloc', Hloc, Hscr'.
  destruct (Z.eqb_spec (script_rebootrequired s) 1); [contradiction | ].
  reflexivity.
Qed.

Lemma restart_test_idle_when_function_local_witness :
  In (Invoke (Enable_WindowsOptionalFeature Microsoft_Windows_Subsystem_Linux))
     (log at_restart_test) /\
  script_rebootrequired at_restart_test = 0%Z /\
  @run_activities (cooperative FunctionLocal) 8 [A_If_rebootrequired_Restart]
    at_restart_test
  = (Ret tt, record (Step 8 A_If_rebootrequired_Restart) at_restart_test).
Proof.
  split.
  - vm_compute. repeat (first [left; reflexivity | right]).
  - apply (@restart_test_idle_when_function_local
             (cooperative FunctionLocal) (start fresh_host) at_restart_test).
    + reflexivity.
    + reflexivity.
    + cbn. lia.
    + vm_compute. reflexivity.
Defined.

(** ** What a run establishes where the cmdlets can be relied on *)

(** X8. Where the cmdlets achieve what they are called for and undo nothing,
    the workflow, continued at any position up to EnsureLinuxSubsystemEnabled,
    leaves a host on which both features are no longer Disabled, both files
    are in C:\Temp and the Ubuntu package is installed. *)
Theorem workflow_establishes_capabilities `{P : Platform}
        (D : Dependable P) (k : nat) (s : State) :
  k <= 6 ->
  provisioned (host (snd (resume k s))) = true.
Proof.
  intros Hk. unfold provisioned. apply forallb_forall. intros cap Hcap.
  apply (run_activities_establishes D).
  do 7 (destruct k as [ | k];
        [cbn in Hcap |- *; intuition (subst; auto 10) | ]).
  lia.
Qed.

Lemma workflow_establishes_capabilities_witness :
  provisioned
    (host (snd (@resume (cooperative ScriptWide) 6 (start fresh_host))))
  = true.
Proof.
  apply (@workflow_establishes_capabilities (cooperative ScriptWide)
           (cooperative_dependable ScriptWide) 6 (start fresh_host)).
  lia.
Defined.

(** A guarded step whose inspected capabilities are all satisfied leaves the
    host alone. *)
Lemma guarded_step_leaves_satisfied_host `{Platform}
      (a : Activity) (s : State) :
  In a guarded_steps ->
  (forall cap, In cap (inspects a) -> IsSatisfied cap (host s) = true) ->
  exists s' l,
    exec_activity a s = (Ret tt, s') /\
    host s' = host s /\
    log s' = log s ++ l /\
    mutations l = [] /\
    restarts l = 0.
Proof.
  intros Hin Hsat. cbn in Hin.
  destruct Hin as [<- | [<- | [<- | []]]].
  - pose proof (Hsat _ (or_introl eq_refl)) as Hwsl.
    unfold IsSatisfied, feature_state in Hwsl.
    apply negb_true_iff in Hwsl. unfold_script. rewrite Hwsl. cbn.
    do 2 eexists. split; [reflexivity | ]. split; [reflexivity | ].
    split; [log_tail | auto].
  - pose proof (Hsat _ (or_introl eq_refl)) as Hvmp.
    unfold IsSatisfied, feature_state in Hvmp.
    apply negb_true_iff in Hvmp. unfold_script. rewrite Hvmp. cbn.
    do 2 eexists. split; [reflexivity | ]. split; [reflexivity | ].
    split; [log_tail | auto].
  - pose proof (Hsat _ (or_introl eq_refl)) as Hfile.
    pose proof (Hsat _ (or_intror (or_introl eq_refl))) as Hpkg.
    unfold IsSatisfied, artifact_present in Hfile, Hpkg.
    unfold_script. rewrite Hfile. cbn. rewrite Hpkg. cbn.
    do 2 eexists. split; [reflexivity | ]. split; [reflexivity | ].
    split; [log_tail | auto].
Qed.

(** X9. Where the cmdlets can be relied on, each of
    EnsureLinuxSubsystemEnabled, EnsureVirtualMachinePlatformEnabled and
    EnsureUbuntuAPPXInstalled is idempotent: executed a second time right
    after the first, it performs no mutating cmdlet, issues no restart and
    leaves the host as the first execution left it. *)
Theorem guarded_step_idempotent `{P : Platform}
        (D : Dependable P) (a : Activity) (s : State) :
  In a guarded_steps ->
  exists s1 s2 l,
    exec_activity a s = (Ret tt, s1) /\
    exec_activity a s1 = (Ret tt, s2) /\
    host s2 = host s1 /\
    log s2 = log s1 ++ l /\
    mutations l = [] /\
    restarts l = 0.
Proof.
  intros Hin.
  destruct (exec_activity_returns a s) as (s1 & l1 & Hrun1 & _).
  assert (Hsat : forall cap, In cap (inspects a) ->
                             IsSatisfied cap (host s1) = true).
  { intros cap Hcap.
    pose proof (exec_activity_establishes D a s cap Hcap) as He.
    rewrite Hrun1 in He. exact He. }
  destruct (guarded_step_leaves_satisfied_host a s1 Hin Hsat)
    as (s2 & l & Hrun2 & Hhost & Hlog & Hmut & Hres).
  exists s1, s2, l. auto 10.
Qed.

Lemma guarded_step_idempotent_witness :
  exists s1 s2 l,
    @exec_activity (cooperative FunctionLocal) A_EnsureUbuntuAPPXInstalled
                   (start fresh_host) = (Ret tt, s1) /\
    @exec_activity (cooperative FunctionLocal) A_EnsureUbuntuAPPXInstalled s1
    = (Ret tt, s2) /\
    host s2 = host s1 /\
    log s2 = log s1 ++ l /\
    mutations l = [] /\
    restarts l = 0.
Proof.
  apply (@guarded_step_idempotent (cooperative FunctionLocal)
           (cooperative_dependable FunctionLocal)
           A_EnsureUbuntuAPPXInstalled (start fresh_host)).
  cbn. auto.
Defined.

(** * The program detectors of vagrant-up.js *)

Import VagrantUp.
Local Open Scope string_scope.

(** [exec] returns [null] when the command succeeds and throws otherwise:
    [options] has [stdio: 'ignore']. *)
Lemma exec_outcome (sys : System) (cmd : string) :
  exec sys cmd =
  if (fst (sh sys None cmd) =? 0)%Z then Ret JsNull
  else Throw (CommandFailed cmd (fst (sh sys None cmd))).
Proof.
  unfold exec, execSync. cbn. destruct (sh sys None cmd) as [status out].
  cbn. destruct (status =? 0)%Z; reflexivity.
Qed.

Lemma exec_succeeds (sys : System) (cmd : string) :
  succeeds sys cmd -> exec sys cmd = Ret JsNull.
Proof.
  unfold succeeds. intros E. rewrite exec_outcome, E. reflexivity.
Qed.

Lemma exec_fails (sys : System) (cmd : string) :
  ~ succeeds sys cmd ->
  exec sys cmd = Throw (CommandFailed cmd (fst (sh sys None cmd))).
Proof.
  unfold succeeds. intros E. rewrite exec_outcome.
  destruct (Z.eqb_spec (fst (sh sys None cmd)) 0); [contradiction | reflexivity].
Qed.

Lemma truthy_exec_outcome (sys : System) (cmd : string) :
  (v <- exec sys cmd ;; Ret (Boolean v)) =
  if (fst (sh sys None cmd) =? 0)%Z then Ret false
  else Throw (CommandFailed cmd (fst (sh sys None cmd))).
Proof.
  rewrite exec_outcome. destruct (_ =? _)%Z; reflexivity.
Qed.

Lemma isUnixInstalled_never_true (sys : System) (program : string) :
  isUnixInstalled sys program <> Ret true.
Proof.
  unfold isUnixInstalled. rewrite truthy_exec_outcome.
  destruct (_ =? _)%Z; discriminate.
Qed.

Lemma isMacInstalled_never_true (sys : System) (program : string) :
  isMacInstalled sys program <> Ret true.
Proof.
  unfold isMacInstalled. rewrite truthy_exec_outcome.
  destruct (_ =? _)%Z; discriminate.
Qed.

(** Mapping [Boolean(exec(attempt))] over command lines yields only [false]. *)
Lemma attempts_all_false (sys : System) (attempts : list string) :
  forall results,
    Array_map (fun attempt => v <- exec sys attempt ;; Ret (Boolean v)) attempts
    = Ret results ->
    existsb (Bool.eqb true) results = false.
Proof.
  induction attempts as [ | a rest IH]; intros results Hmap; cbn in Hmap.
  - injection Hmap as <-. reflexivity.
  - rewrite exec_outcome in Hmap.
    destruct (_ =? _)%Z; cbn in Hmap; [ | discriminate].
    destruct (Array_map _ rest) as [rs | e]; cbn in Hmap; [ | discriminate].
    injection Hmap as <-. cbn. apply IH. reflexivity.
Qed.

Lemma attempts_succeed (sys : System) (attempts : list string) :
  Forall (succeeds sys) attempts ->
  Array_map (fun attempt => v <- exec sys attempt ;; Ret (Boolean v)) attempts
  = Ret (map (fun _ => false) attempts).
Proof.
  induction 1 as [ | a rest Ha _ IH]; [reflexivity | ].
  cbn. rewrite (exec_succeeds sys a Ha). cbn.
  cbn in IH. rewrite IH. reflexivity.
Qed.

Lemma isWindowsInstalled_never_true (sys : System) (program : string) :
  isWindowsInstalled sys program <> Ret true.
Proof.
  unfold isWindowsInstalled.
  destruct (Array_map _ (where_attempts program)) as [rs | e] eqn:Hmap;
    cbn; [ | discriminate].
  rewrite (attempts_all_false sys _ rs Hmap). discriminate.
Qed.

(** C10. A command-based detector whose probing command lines all exit with
    status 0 returns false, [exec] having handed back [null]; and whenever
    [isInstalled] returns true, the three command-based detectors returned
    false and it is [isDotDesktopInstalled] that returned true. *)
Theorem shell_detectors_never_report_installed
        (sys : System) (program : string) :
  (succeeds sys (hash_command program) ->
   exec sys (hash_command program) = Ret JsNull /\
   isUnixInstalled sys program = Ret false) /\
  (succeeds sys (osascript_command program) ->
   isMacInstalled sys program = Ret false) /\
  (Forall (succeeds sys) (where_attempts program) ->
   isWindowsInstalled sys program = Ret false) /\
  (isInstalled sys program = Ret true ->
   isUnixInstalled sys program = Ret false /\
   isMacInstalled sys program = Ret false /\
   isWindowsInstalled sys program = Ret false /\
   isDotDesktopInstalled sys program = Ret true).
Proof.
  split; [ | split; [ | split]].
  - intros Hok. split; [now apply exec_succeeds | ].
    unfold isUnixInstalled. rewrite (exec_succeeds _ _ Hok). reflexivity.
  - intros Hok. unfold isMacInstalled. rewrite (exec_succeeds _ _ Hok).
    reflexivity.
  - intros Hok. unfold isWindowsInstalled.
    rewrite (attempts_succeed _ _ Hok). reflexivity.
  - intros Hinst. unfold isInstalled in Hinst.
    cbn [Array_some bind Monad_Outcome] in Hinst.
    pose proof (isUnixInstalled_never_true sys program) as Hu.
    pose proof (isMacInstalled_never_true sys program) as Hm.
    pose proof (isWindowsInstalled_never_true sys program) as Hw.
    destruct (isUnixInstalled sys program) as [[ | ] | e1];
      try congruence; try discriminate.
    destruct (isMacInstalled sys program) as [[ | ] | e2];
      try congruence; try discriminate.
    destruct (isWindowsInstalled sys program) as [[ | ] | e3];
      try congruence; try discriminate.
    destruct (isDotDesktopInstalled sys program) as [[ | ] | e4];
      try congruence; try discriminate.
    auto.
Qed.

Lemma shell_detectors_never_report_installed_witness :
  isUnixInstalled obliging "virtualbox" = Ret false /\
  isMacInstalled obliging "virtualbox" = Ret false /\
  isWindowsInstalled obliging "virtualbox" = Ret false /\
  isDotDesktopInstalled obliging "virtualbox" = Ret true.
Proof.
  destruct (shell_detectors_never_report_installed obliging "virtualbox")
    as (Hunix & Hmac & Hwin & Hinst).
  assert (Hu : succeeds obliging (hash_command "virtualbox")) by reflexivity.
  assert (Hm : succeeds obliging (osascript_command "virtualbox"))
    by reflexivity.
  assert (Hw : Forall (succeeds obliging) (where_attempts "virtualbox"))
    by (repeat constructor).
  assert (Hi : isInstalled obliging "virtualbox" = Ret true) by reflexivity.
  pose proof (Hunix Hu) as [_ H1]. pose proof (Hmac Hm) as H2.
  pose proof (Hwin Hw) as H3. pose proof (Hinst Hi) as (_ & _ & _ & H4).
  auto.
Defined.

(** C9 on the code. VirtualBox is registered as a desktop application, but
    [hash virtualbox] exits with status 1: [isUnixInstalled] throws instead of
    returning false, and [isInstalled] throws with it before the check that
    would have answered true is reached. *)
Theorem isInstalled_throws_when_hash_fails :
  sh desktop_only None (hash_command "virtualbox") = (1%Z, EmptyString) /\
  isUnixInstalled desktop_only "virtualbox"
  = Throw (CommandFailed "hash virtualbox 2>/dev/null" 1) /\
  isMacInstalled desktop_only "virtualbox"
  = Throw (CommandFailed (osascript_command "virtualbox") 1) /\
  isWindowsInstalled desktop_only "virtualbox"
  = Throw (CommandFailed "where virtualbox" 1) /\
  isDotDesktopInstalled desktop_only "virtualbox" = Ret true /\
  isInstalled desktop_only "virtualbox"
  = Throw (CommandFailed "hash virtualbox 2>/dev/null" 1).
Proof. vm_compute. auto 10. Qed.

(** Whatever the system, a probing command that exits with a status other
    than 0 makes its detector throw. *)
Lemma isUnixInstalled_propagates (sys : System) (program : string) :
  ~ succeeds sys (hash_command program) ->
  isUnixInstalled sys program
  = Throw (CommandFailed (hash_command program)
                         (fst (sh sys None (hash_command program)))) /\
  isInstalled sys program = isUnixInstalled sys program.
Proof.
  intros Hfail. unfold isInstalled. cbn [Array_some bind Monad_Outcome].
  unfold isUnixInstalled.
  rewrite (exec_fails _ _ Hfail). split; reflexivity.
Qed.

(** * Further properties of vagrant-up.js *)

Import VagrantUpPrompt.

(** ** Strings *)

Lemma length_append (s1 s2 : string) :
  String.length (s1 ++ s2) = String.length s1 + String.length s2.
Proof.
  induction s1 as [ | c s1 IH]; cbn; [reflexivity | now rewrite IH].
Qed.

Lemma substring_whole (s : string) :
  substring 0 (String.length s) s = s.
Proof.
  induction s as [ | c s IH]; cbn; [reflexivity | now rewrite IH].
Qed.

Lemma substring_after_append (k s : string) (m : nat) :
  substring (String.length k) m (k ++ s) = substring 0 m s.
Proof.
  induction k as [ | c k IH]; cbn; [reflexivity | exact IH].
Qed.

Lemma substring_before_append (k s : string) :
  substring 0 (String.length k) (k ++ s) = k.
Proof.
  induction k as [ | c k IH]; cbn; [now destruct s | now rewrite IH].
Qed.

Lemma substring_split (s : string) :
  forall n, n <= String.length s ->
  s = substring 0 n s ++ substring n (String.length s - n) s.
Proof.
  induction s as [ | c s IH]; intros n Hn; cbn in Hn.
  - assert (n = 0) by lia. subst n. reflexivity.
  - destruct n as [ | n].
    + cbn. now rewrite substring_whole.
    + cbn. f_equal. apply IH. lia.
Qed.

Lemma endsWith_append (k suffix : string) :
  endsWith (k ++ suffix) suffix = true.
Proof.
  unfold endsWith. rewrite length_append.
  replace (String.length k + String.length suffix - String.length suffix)
    with (String.length k) by lia.
  rewrite substring_after_append, substring_whole, String.eqb_refl.
  rewrite andb_true_r. apply Nat.leb_le. lia.
Qed.

Lemma endsWith_split (s suffix : string) :
  endsWith s suffix = true ->
  s = substring 0 (String.length s - String.length suffix) s ++ suffix.
Proof.
  unfold endsWith. intros H. apply andb_true_iff in H as [Hlen Heq].
  apply Nat.leb_le in Hlen. apply String.eqb_eq in Heq.
  pose proof (substring_split s (String.length s - String.length suffix))
    as Hs.
  replace (String.length s - (String.length s - String.length suffix))
    with (String.length suffix) in Hs by lia.
  rewrite Heq in Hs. apply Hs. lia.
Qed.

Lemma append_inj_r (k1 k2 suffix : string) :
  k1 ++ suffix = k2 ++ suffix -> k1 = k2.
Proof.
  intros H.
  rewrite <- (substring_before_append k1 suffix),
          <- (substring_before_append k2 suffix).
  assert (Hlen : String.length k1 = String.length k2).
  { apply (f_equal String.length) in H. rewrite !length_append in H. lia. }
  rewrite H, Hlen. reflexivity.
Qed.

Lemma replace_dot_desktop_append (k : string) :
  replace_dot_desktop (k ++ ".desktop") = k.
Proof.
  unfold replace_dot_desktop. rewrite endsWith_append, length_append.
  replace (String.length k + String.length ".desktop"
           - String.length ".desktop") with (String.length k) by lia.
  apply substring_before_append.
Qed.

Lemma desktop_file_of_key (file key : string) :
  endsWith file ".desktop" = true ->
  replace_dot_desktop file = key <-> file = key ++ ".desktop".
Proof.
  intros Hends. split.
  - intros <-. unfold replace_dot_desktop. rewrite Hends.
    now apply endsWith_split.
  - intros ->. apply replace_dot_desktop_append.
Qed.

(** ** isDotDesktopInstalled *)

Lemma filter_Boolean_keeps (l : list (option string)) (v : string) :
  In (Some v) l -> v <> EmptyString -> In v (filter_Boolean l).
Proof.
  intros Hin Hne. induction l as [ | [w | ] rest IH]; cbn in Hin |- *.
  - contradiction.
  - destruct Hin as [E | Hin].
    + injection E as ->.
      destruct (String.eqb_spec v EmptyString); [contradiction | ].
      now left.
    + destruct (w =? EmptyString); [auto | right; auto].
  - destruct Hin as [E | Hin]; [discriminate | auto].
Qed.

Lemma Array_filter_readdir (sys : System)
      (f : string -> Outcome JsError bool) (dirs : list string) :
  (forall path, f path = match directory sys path with
                         | Some _ => Ret true
                         | None => Throw (ENOENT path)
                         end) ->
  (Forall (fun d => directory sys d <> None) dirs /\
   Array_filter f dirs = Ret dirs) \/
  (exists d, In d dirs /\ directory sys d = None /\
   Array_filter f dirs = Throw (ENOENT d)).
Proof.
  intros Hf. induction dirs as [ | d rest IH].
  - left. split; [constructor | reflexivity].
  - cbn [Array_filter bind Monad_Outcome]. rewrite Hf.
    destruct (directory sys d) as [entries | ] eqn:Hd.
    + destruct IH as [[Hall Hret] | (d' & Hin & Hnone & Hthrow)].
      * left. rewrite Hret. split; [ | reflexivity].
        constructor; [congruence | exact Hall].
      * right. exists d'. rewrite Hthrow. cbn. auto.
    + right. exists d. cbn. auto.
Qed.

Lemma Array_map_readdir (sys : System) (dirs : list string) :
  Forall (fun d => directory sys d <> None) dirs ->
  Array_map (readdirSync sys) dirs
  = Ret (map (fun d => match directory sys d with
                       | Some entries => entries
                       | None => []
                       end) dirs).
Proof.
  induction 1 as [ | d rest Hd _ IH]; [reflexivity | ].
  cbn. unfold readdirSync at 1.
  destruct (directory sys d) as [entries | ]; [ | contradiction].
  cbn. cbn in IH. rewrite IH. reflexivity.
Qed.

Lemma isDotDesktopInstalled_outcome (sys : System) (program : string) :
  (Forall (fun d => directory sys d <> None) (application_directories sys) /\
   isDotDesktopInstalled sys program
   = Ret (existsb (String.eqb (replace_dot_desktop program))
            (map replace_dot_desktop
               (filter (fun file => endsWith file ".desktop")
                       (listed_entries sys))))) \/
  (exists d, In d (application_directories sys) /\ directory sys d = None /\
   isDotDesktopInstalled sys program = Throw (ENOENT d)).
Proof.
  unfold isDotDesktopInstalled.
  fold (application_directories sys).
  match goal with
  | |- context [Array_filter ?f _] =>
      destruct (Array_filter_readdir sys f (application_directories sys))
        as [[Hall Hret] | (d & Hin & Hnone & Hthrow)];
      [ intros path; unfold readdirSync;
        destruct (directory sys path); reflexivity | | ]
  end.
  - left. split; [exact Hall | ]. rewrite Hret. cbn [bind Monad_Outcome].
    rewrite (Array_map_readdir sys _ Hall). cbn [bind Monad_Outcome].
    unfold listed_entries. rewrite flat_map_concat_map. reflexivity.
  - right. exists d. rewrite Hthrow. auto.
Qed.

(** X10. [isDotDesktopInstalled] returns a value exactly when every directory
    it lists exists; if one of them is missing it throws. The list always
    holds /usr/share/applications and /usr/local/share/applications, and
    ~/.local/share/applications when HOME is set. *)
Theorem isDotDesktopInstalled_returns_iff (sys : System) (program : string) :
  ((exists b, isDotDesktopInstalled sys program = Ret b) <->
   Forall (fun d => directory sys d <> None) (application_directories sys)) /\
  In "/usr/share/applications" (application_directories sys) /\
  In "/usr/local/share/applications" (application_directories sys) /\
  (forall home, HOME sys = Some home -> home <> EmptyString ->
   In (home ++ "/.local/share/applications") (application_directories sys)).
Proof.
  split; [ | split; [ | split]].
  - destruct (isDotDesktopInstalled_outcome sys program)
      as [[Hall Hret] | (d & Hin & Hnone & Hthrow)].
    + split; [intros _; exact Hall | intros _; eauto].
    + rewrite Hthrow. split.
      * intros [b Hb]. discriminate.
      * intros Hall. exfalso.
        rewrite Forall_forall in Hall. exact (Hall d Hin Hnone).
  - apply filter_Boolean_keeps; [cbn; auto | discriminate].
  - apply filter_Boolean_keeps; [cbn; auto | discriminate].
  - intros home Hhome Hne. apply filter_Boolean_keeps.
    + rewrite Hhome. unfold env_and.
      destruct (String.eqb_spec home EmptyString); [contradiction | ].
      cbn. auto.
    + destruct home; [contradiction | discriminate].
Qed.

Lemma isDotDesktopInstalled_returns_iff_witness :
  exists b, isDotDesktopInstalled desktop_only "virtualbox" = Ret b.
Proof.
  apply (isDotDesktopInstalled_returns_iff desktop_only "virtualbox").
  repeat constructor; discriminate.
Defined.

(** X11. [isDotDesktopInstalled] returns true exactly when every directory it
    lists exists and one of them holds the file [key.desktop], [key] being
    the program name with one trailing [.desktop] removed. *)
Theorem isDotDesktopInstalled_true_iff (sys : System) (program : string) :
  isDotDesktopInstalled sys program = Ret true <->
  Forall (fun d => directory sys d <> None) (application_directories sys) /\
  In (replace_dot_desktop program ++ ".desktop") (listed_entries sys).
Proof.
  destruct (isDotDesktopInstalled_outcome sys program)
    as [[Hall Hret] | (d & Hin & Hnone & Hthrow)].
  - rewrite Hret. split.
    + intros H. injection H as H. split; [exact Hall | ].
      apply existsb_exists in H as (key & Hkey & Heq).
      apply String.eqb_eq in Heq. subst key.
      apply in_map_iff in Hkey as (file & Hrep & Hfile).
      apply filter_In in Hfile as [Hfile Hends].
      apply (desktop_file_of_key file _ Hends) in Hrep. now subst file.
    + intros [_ Hin]. f_equal. apply existsb_exists.
      exists (replace_dot_desktop program). split; [ | apply String.eqb_refl].
      apply in_map_iff.
      exists (replace_dot_desktop program ++ ".desktop").
      split; [apply replace_dot_desktop_append | ].
      apply filter_In. split; [exact Hin | apply endsWith_append].
  - rewrite Hthrow. split; [discriminate | ].
    intros [Hall _]. exfalso.
    rewrite Forall_forall in Hall. exact (Hall d Hin Hnone).
Qed.

Lemma isDotDesktopInstalled_true_iff_witness :
  isDotDesktopInstalled desktop_only "virtualbox" = Ret true.
Proof.
  apply (isDotDesktopInstalled_true_iff desktop_only "virtualbox").
  split.
  - repeat constructor; discriminate.
  - vm_compute. auto.
Defined.

(** X12. A program name may be given with or without [.desktop]: for a name
    that does not itself end in [.desktop], [isDotDesktopInstalled] answers
    the same for [name] and for [name.desktop]. *)
Theorem isDotDesktopInstalled_suffix (sys : System) (program : string) :
  endsWith program ".desktop" = false ->
  isDotDesktopInstalled sys (program ++ ".desktop")
  = isDotDesktopInstalled sys program.
Proof.
  intros Hends.
  assert (Hkey : replace_dot_desktop (program ++ ".desktop")
                 = replace_dot_desktop program).
  { rewrite replace_dot_desktop_append. unfold replace_dot_desktop.
    now rewrite Hends. }
  unfold isDotDesktopInstalled. rewrite Hkey. reflexivity.
Qed.

Lemma isDotDesktopInstalled_suffix_witness :
  isDotDesktopInstalled desktop_only "virtualbox.desktop"
  = isDotDesktopInstalled desktop_only "virtualbox".
Proof.
  apply (isDotDesktopInstalled_suffix desktop_only "virtualbox").
  reflexivity.
Defined.

(** ** The command-based detectors and isInstalled *)

(** Mapping [Boolean(exec(attempt))] over command lines: either all of them
    succeed, or the first that fails is thrown. *)
Lemma attempts_outcome (sys : System) (attempts : list string) :
  (Forall (succeeds sys) attempts /\
   Array_map (fun attempt => v <- exec sys attempt ;; Ret (Boolean v)) attempts
   = Ret (map (fun _ => false) attempts)) \/
  (exists before failed rest,
     attempts = (before ++ failed :: rest)%list /\
     Forall (succeeds sys) before /\
     ~ succeeds sys failed /\
     Array_map (fun attempt => v <- exec sys attempt ;; Ret (Boolean v))
               attempts
     = Throw (CommandFailed failed (fst (sh sys None failed)))).
Proof.
  induction attempts as [ | a rest IH].
  - left. split; [constructor | reflexivity].
  - cbn [Array_map bind Monad_Outcome].
    destruct (Z.eq_dec (fst (sh sys None a)) 0) as [Hok | Hfail].
    + rewrite (exec_succeeds sys a Hok). cbn [Boolean].
      destruct IH as [[Hall Hret] | (before & failed & rest' & -> & Hb & Hf & Hthrow)].
      * left. cbn [bind Monad_Outcome] in Hret |- *. rewrite Hret.
        split; [constructor; assumption | reflexivity].
      * right. exists (a :: before), failed, rest'.
        cbn [bind Monad_Outcome] in Hthrow |- *. rewrite Hthrow.
        repeat split; auto.
    + right. exists [], a, rest. rewrite (exec_fails sys a Hfail).
      repeat split; auto.
Qed.

(** X13. [isWindowsInstalled] runs its four [where] variants in order and
    returns false when all four exit with status 0; otherwise it throws the
    failure of the first variant that does not, and the later variants are
    never run. It never returns true. *)
Theorem isWindowsInstalled_outcome (sys : System) (program : string) :
  (Forall (succeeds sys) (where_attempts program) /\
   isWindowsInstalled sys program = Ret false) \/
  (exists before failed rest,
     where_attempts program = (before ++ failed :: rest)%list /\
     Forall (succeeds sys) before /\
     ~ succeeds sys failed /\
     isWindowsInstalled sys program
     = Throw (CommandFailed failed (fst (sh sys None failed)))).
Proof.
  unfold isWindowsInstalled.
  destruct (attempts_outcome sys (where_attempts program))
    as [[Hall Hret] | (before & failed & rest & Heq & Hb & Hf & Hthrow)].
  - left. split; [exact Hall | ]. rewrite Hret. reflexivity.
  - right. exists before, failed, rest. rewrite Hthrow. auto.
Qed.

(** What [isInstalled] returned, it returned after every shell probe had
    succeeded, and it is what [isDotDesktopInstalled] returned. *)
Lemma isInstalled_returned (sys : System) (program : string) (b : bool) :
  isInstalled sys program = Ret b ->
  succeeds sys (hash_command program) /\
  succeeds sys (osascript_command program) /\
  Forall (succeeds sys) (where_attempts program) /\
  isDotDesktopInstalled sys program = Ret b.
Proof.
  unfold isInstalled. cbn [Array_some bind Monad_Outcome].
  unfold isUnixInstalled, isMacInstalled, isWindowsInstalled.
  rewrite !truthy_exec_outcome.
  fold (succeeds sys (hash_command program)).
  destruct (Z.eqb_spec (fst (sh sys None (hash_command program))) 0)
    as [Hu | Hu]; [ | discriminate].
  destruct (Z.eqb_spec (fst (sh sys None (osascript_command program))) 0)
    as [Hm | Hm]; [ | discriminate].
  destruct (attempts_outcome sys (where_attempts program))
    as [[Hall Hret] | (before & failed & rest & Heq & Hb & Hf & Hthrow)].
  - rewrite Hret. cbn [bind Monad_Outcome map where_attempts existsb].
    destruct (isDotDesktopInstalled sys program) as [[ | ] | e];
      intros H; try discriminate H; injection H as <-; auto.
  - rewrite Hthrow. discriminate.
Qed.

(** X14. [isInstalled] returns a value exactly when the [hash] probe, the
    [osascript] probe and all four [where] probes exit with status 0, and
    the value it returns is then the one of [isDotDesktopInstalled]; in every
    other case it throws. *)
Theorem isInstalled_returns_iff (sys : System) (program : string) (b : bool) :
  isInstalled sys program = Ret b <->
  succeeds sys (hash_command program) /\
  succeeds sys (osascript_command program) /\
  Forall (succeeds sys) (where_attempts program) /\
  isDotDesktopInstalled sys program = Ret b.
Proof.
  split; [apply isInstalled_returned | ].
  intros (Hu & Hm & Hw & Hd).
  unfold isInstalled. cbn [Array_some bind Monad_Outcome].
  unfold isUnixInstalled, isMacInstalled, isWindowsInstalled.
  rewrite (exec_succeeds _ _ Hu), (exec_succeeds _ _ Hm),
    (attempts_succeed _ _ Hw), Hd.
  cbn. destruct b; reflexivity.
Qed.

Lemma isInstalled_returns_iff_witness :
  isInstalled obliging "virtualbox" = Ret true.
Proof.
  apply (isInstalled_returns_iff obliging "virtualbox" true).
  split; [reflexivity | ]. split; [reflexivity | ].
  split; [repeat constructor | reflexivity].
Defined.

(** ** The provider prompt *)

Lemma execPowerShell_outcome (sys : System) (cmd : string) :
  (v <- execPowerShell sys cmd ;; Ret (Boolean v)) =
  if (fst (sh sys (Some "powershell.exe") cmd) =? 0)%Z then Ret false
  else Throw (CommandFailed cmd (fst (sh sys (Some "powershell.exe") cmd))).
Proof.
  unfold execPowerShell, execSync. cbn.
  destruct (sh sys (Some "powershell.exe") cmd) as [status out]. cbn.
  destruct (status =? 0)%Z; reflexivity.
Qed.

Ltac solve_subsequence :=
  repeat first [ apply Subsequence_nil
               | apply Subsequence_keep
               | apply Subsequence_skip ].

(** Case analysis on the platform tests and the six probes of
    [platform_choices], given that it returned. *)
Ltac choices_cases H :=
  unfold platform_choices in H;
  rewrite execPowerShell_outcome in H;
  repeat match type of H with
         | context [(?p =? ?lit)%string] =>
             let E := fresh "Eplatform" in
             destruct (String.eqb_spec p lit) as [E | E]
         end;
  cbn [and_then orb negb bind Monad_Outcome] in H;
  repeat match type of H with
         | context [if ?c then Ret false else Throw _] =>
             destruct c; cbn [bind Monad_Outcome] in H; [ | discriminate H]
         | context [isInstalled ?sys ?p] =>
             let E := fresh "Einstalled" in
             destruct (isInstalled sys p) as [[ | ] | ?] eqn:E;
             cbn [bind Monad_Outcome] in H; [ | | discriminate H]
         end;
  injection H as <-; cbn [push_if app].

(** X15. Whatever the machine, the list promptForPlatform shows never holds
    Hyper-V, its entries come in the order KVM, Parallels, VirtualBox,
    VMWare Fusion, VMWare Workstation with none repeated, Parallels and
    VMWare Fusion are offered on darwin only, VMWare Workstation never on
    darwin, and KVM on darwin and linux only. *)
Theorem platform_choices_offered (sys : System) (platform : string)
        (choices : list string) :
  platform_choices sys platform = Ret choices ->
  ~ In "Hyper-V" choices /\
  Subsequence choices
    ["KVM"; "Parallels"; "VirtualBox"; "VMWare Fusion"; "VMWare Workstation"] /\
  (platform <> "darwin" ->
   ~ In "Parallels" choices /\ ~ In "VMWare Fusion" choices) /\
  (platform = "darwin" -> ~ In "VMWare Workstation" choices) /\
  (platform <> "darwin" -> platform <> "linux" -> ~ In "KVM" choices).
Proof.
  intros H. choices_cases H;
    (split; [cbn; intuition discriminate | ];
     split; [solve_subsequence | ];
     split; [intros ?; try contradiction; cbn; intuition discriminate | ];
     split; [intros ?; try contradiction; try congruence;
             cbn; intuition discriminate | ];
     intros ? ?; try contradiction; try congruence;
     cbn; intuition discriminate).
Qed.

Lemma platform_choices_offered_witness :
  ~ In "Hyper-V" ["VirtualBox"; "VMWare Fusion"] /\
  Subsequence ["VirtualBox"; "VMWare Fusion"]
    ["KVM"; "Parallels"; "VirtualBox"; "VMWare Fusion"; "VMWare Workstation"] /\
  ("darwin" <> "darwin" ->
   ~ In "Parallels" ["VirtualBox"; "VMWare Fusion"] /\
   ~ In "VMWare Fusion" ["VirtualBox"; "VMWare Fusion"]) /\
  ("darwin" = "darwin" ->
   ~ In "VMWare Workstation" ["VirtualBox"; "VMWare Fusion"]) /\
  ("darwin" <> "darwin" -> "darwin" <> "linux" ->
   ~ In "KVM" ["VirtualBox"; "VMWare Fusion"]).
Proof.
  apply (platform_choices_offered mac_with_fusion "darwin").
  reflexivity.
Defined.

(** X16. An entry is on the list only if [isInstalled] returned true for the
    program it stands for, that is, only if that program is registered as a
    desktop application; and the list is shown at all only if the probes of
    [virtualbox] (which is probed on every platform) all exited with
    status 0. *)
Theorem platform_choices_probed (sys : System) (platform : string)
        (choices : list string) :
  platform_choices sys platform = Ret choices ->
  (forall choice, In choice choices ->
     isInstalled sys (probed_program choice) = Ret true /\
     isDotDesktopInstalled sys (probed_program choice) = Ret true) /\
  succeeds sys (hash_command "virtualbox") /\
  succeeds sys (osascript_command "virtualbox") /\
  Forall (succeeds sys) (where_attempts "virtualbox").
Proof.
  intros H.
  assert (Hvb : exists b, isInstalled sys "virtualbox" = Ret b).
  { pose proof H as H'. choices_cases H'; eauto. }
  destruct Hvb as [b Hb]. apply isInstalled_returned in Hb.
  split; [ | tauto].
  intros choice Hin.
  assert (Hinst : isInstalled sys (probed_program choice) = Ret true).
  { clear Hb. choices_cases H; cbn [In] in Hin;
      repeat match goal with
             | Hor : _ \/ _ |- _ => destruct Hor as [<- | Hor]
             | Hf : False |- _ => destruct Hf
             end;
      match goal with
      | |- context [probed_program ?c] =>
          let p := eval vm_compute in (probed_program c) in
          change (probed_program c) with p
      end;
      match goal with
      | E : isInstalled sys ?p = Ret true |- isInstalled sys ?p = Ret true =>
          exact E
      end. }
  split; [exact Hinst | ].
  apply isInstalled_returned in Hinst. tauto.
Qed.

Lemma platform_choices_probed_witness :
  (forall choice, In choice ["VirtualBox"; "VMWare Fusion"] ->
     isInstalled mac_with_fusion (probed_program choice) = Ret true /\
     isDotDesktopInstalled mac_with_fusion (probed_program choice) = Ret true) /\
  succeeds mac_with_fusion (hash_command "virtualbox") /\
  succeeds mac_with_fusion (osascript_command "virtualbox") /\
  Forall (succeeds mac_with_fusion) (where_attempts "virtualbox").
Proof.
  apply (platform_choices_probed mac_with_fusion "darwin").
  reflexivity.
Defined.

Lemma platform_choices_offered_sub (sys : System) (platform : string)
      (choices : list string) :
  platform_choices sys platform = Ret choices ->
  forall choice, In choice choices ->
    choice = "KVM" \/ choice = "Parallels" \/ choice = "VirtualBox" \/
    choice = "VMWare Fusion" \/ choice = "VMWare Workstation".
Proof.
  intros H choice Hin. choices_cases H; cbn [In] in Hin;
    repeat match goal with
           | Hor : _ \/ _ |- _ => destruct Hor as [<- | Hor]
           | Hf : False |- _ => destruct Hf
           end; auto 10.
Qed.

(** X17. When the user's answer is one of the entries shown,
    promptForPlatform returns a provider, never [undefined] and never
    [hyperv], and [run] prints [--provider=] followed by that provider, a
    space and the operating system. *)
Theorem run_prints_provider (sys : System) (platform operatingSystem : string)
        (answer : list string -> string) (choices : list string) :
  platform_choices sys platform = Ret choices ->
  In (answer choices) choices ->
  exists provider,
    In provider ["libvirt"; "parallels"; "virtualbox"; "vmware_fusion";
                 "vmware_workstation"] /\
    promptForPlatform sys platform answer = Ret (Some provider) /\
    run sys platform operatingSystem answer
    = Ret ("--provider=" ++ provider ++ " " ++ operatingSystem).
Proof.
  intros Hchoices Hanswer.
  unfold run, promptForPlatform. rewrite Hchoices.
  cbn [bind Monad_Outcome].
  destruct (platform_choices_offered_sub sys platform choices Hchoices
              (answer choices) Hanswer) as [E | [E | [E | [E | E]]]];
    rewrite E; cbn [platformMap String.eqb Ascii.eqb Bool.eqb];
    eexists; (split; [ | split; reflexivity]); cbn; auto 10.
Qed.

Lemma run_prints_provider_witness :
  exists provider,
    In provider ["libvirt"; "parallels"; "virtualbox"; "vmware_fusion";
                 "vmware_workstation"] /\
    promptForPlatform mac_with_fusion "darwin" first_choice
    = Ret (Some provider) /\
    run mac_with_fusion "darwin" "macos" first_choice
    = Ret ("--provider=" ++ provider ++ " " ++ "macos").
Proof.
  apply (run_prints_provider mac_with_fusion "darwin" "macos" first_choice
           ["VirtualBox"; "VMWare Fusion"]).
  - reflexivity.
  - cbn. auto.
Defined.

(** X18. On linux and on darwin the first probe is [hash kvm]: when it exits
    with a status other than 0, promptForPlatform throws that failure and no
    list is shown, whatever else is installed. *)
Theorem platform_choices_needs_kvm (sys : System) (platform : string) :
  platform = "linux" \/ platform = "darwin" ->
  ~ succeeds sys (hash_command "kvm") ->
  platform_choices sys platform
  = Throw (CommandFailed (hash_command "kvm")
                         (fst (sh sys None (hash_command "kvm")))).
Proof.
  intros Hplatform Hfail. unfold platform_choices.
  assert (Hwin : (platform =? "win32") = false).
  { destruct Hplatform as [-> | ->]; reflexivity. }
  assert (Hunix : (platform =? "darwin") || (platform =? "linux") = true).
  { destruct Hplatform as [-> | ->]; reflexivity. }
  rewrite Hwin, Hunix. cbn [and_then bind Monad_Outcome].
  unfold isInstalled at 1. cbn [Array_some bind Monad_Outcome].
  unfold isUnixInstalled. rewrite (exec_fails _ _ Hfail). reflexivity.
Qed.

Lemma platform_choices_needs_kvm_witness :
  platform_choices desktop_only "linux"
  = Throw (CommandFailed (hash_command "kvm")
                         (fst (sh desktop_only None (hash_command "kvm")))).
Proof.
  apply (platform_choices_needs_kvm desktop_only "linux").
  - left. reflexivity.
  - unfold succeeds. cbn. discriminate.
Defined.

